(** * Profile page: loader, social-graph reader and mutators

    A shallow embedding of [src/pages/Profile.tsx].  The React component
    keeps six pieces of local state, reads its props and the authenticated
    profile, and talks to three backend tables through the Supabase client.
    Handlers are functions in a small state-and-exception monad over a
    [World] that holds the backend store, the component state, the plan of
    transport faults and the trace of requests and navigations. *)

From Stdlib Require Import String List Bool Arith Lia.
Import ListNotations.
Open Scope string_scope.
Open Scope list_scope.

Set Implicit Arguments.

(** ** Data model (the [Profile] interface) *)

Inductive UserType := mentor | team.
Inductive TeamType := FTC | FLL.

Definition UserType_eqb (a b : UserType) : bool :=
  match a, b with
  | mentor, mentor | team, team => true
  | _, _ => false
  end.

Record MentorDetails := {
  mentor_ftc : bool;
  mentor_fll : bool;
  knowledge_areas : list string
}.

Record TeamDetails := {
  team_number : string;
  team_type : TeamType;
  interest_areas : list string
}.

(** The scalar columns of a row of [profiles]. *)
Record ProfileRow := {
  id : string;
  user_type : UserType;
  full_name : string;
  email : string;
  state : string;
  city : string;
  bio : string;
  avatar_url : option string;
  cover_image_url : option string;
  linkedin_url : option string;
  is_public : bool;
  created_at : string
}.

(** A profile as the page holds it: the row with both detail records
    embedded, each possibly absent. *)
Record Profile := {
  columns :> ProfileRow;
  mentor_details : option MentorDetails;
  team_details : option TeamDetails
}.

(** What the follower query projects from the follower's profile:
    [id, full_name, avatar_url, user_type]. *)
Record FollowerProfile := {
  fp_id : string;
  fp_full_name : string;
  fp_avatar_url : option string;
  fp_user_type : UserType
}.

(** One element of [followersList]: [{ follower_id, profiles }], where the
    embedded profile is null when the join finds none. *)
Record FollowerEntry := {
  entry_follower_id : string;
  entry_profiles : option FollowerProfile
}.

(** JavaScript truthiness of a string, and [.filter(Boolean)] on a list of
    possibly-null objects. *)
Definition truthy (s : string) : bool := negb (s =? "").

Fixpoint filter_Boolean {A : Type} (l : list (option A)) : list A :=
  match l with
  | [] => []
  | Some a :: r => a :: filter_Boolean r
  | None :: r => filter_Boolean r
  end.

Definition isSome {A : Type} (o : option A) : bool :=
  match o with Some _ => true | None => false end.

(** ** The backend store *)

Module Db.

Record FollowRow := {
  follow_row_id : nat;
  follower_id : string;
  following_id : string
}.

Record ConnectionRow := {
  connection_row_id : nat;
  mentor_id : string;
  team_id : string;
  status : string
}.

(** The two columns the connect handler filters on; which one receives
    which identifier is computed at run time. *)
Inductive ConnectionColumn := col_mentor_id | col_team_id.

Definition column_value (c : ConnectionColumn) (r : ConnectionRow) : string :=
  match c with
  | col_mentor_id => mentor_id r
  | col_team_id => team_id r
  end.

(** Modelled from the spec: the relational schema lives in the backend
    and is not part of the source.  The three tables the page reads and
    writes are lists of rows (duplicates are representable, no uniqueness
    constraint is assumed); the two detail tables are keyed by the
    profile they belong to; fresh rows draw their [id] from a serial
    counter. *)
Record Store := {
  profiles : list ProfileRow;
  mentor_details_tbl : list (string * MentorDetails);
  team_details_tbl : list (string * TeamDetails);
  followers : list FollowRow;
  connections : list ConnectionRow;
  next_row_id : nat
}.

(** [.eq(column, value)] where the value may be [undefined]: an absent
    value matches no row. *)
Definition eq_value (v : string) (wanted : option string) : bool :=
  match wanted with
  | Some x => v =? x
  | None => false
  end.

Definition details_of {D : Type} (tbl : list (string * D)) (pid : string)
  : option D :=
  option_map snd (find (fun kv => fst kv =? pid) tbl).

(** The select of [loadProfile] asks for every column together with the
    [mentor_details] and [team_details] relations: both detail records
    are embedded in every returned row. *)
Definition embed_details (s : Store) (r : ProfileRow) : Profile :=
  {| columns := r;
     mentor_details := details_of (mentor_details_tbl s) (id r);
     team_details := details_of (team_details_tbl s) (id r) |}.

Definition select_profile (target : option string) (s : Store)
  : list Profile :=
  map (embed_details s) (filter (fun r => eq_value (id r) target) (profiles s)).

Definition summary (r : ProfileRow) : FollowerProfile :=
  {| fp_id := id r;
     fp_full_name := full_name r;
     fp_avatar_url := avatar_url r;
     fp_user_type := user_type r |}.

(** [profiles:follower_id(id, full_name, avatar_url, user_type)] *)
Definition join_follower (s : Store) (e : FollowRow) : FollowerEntry :=
  {| entry_follower_id := follower_id e;
     entry_profiles :=
       option_map summary
         (find (fun r => id r =? follower_id e) (profiles s)) |}.

Definition edges_to (target : option string) (s : Store) : list FollowRow :=
  filter (fun e => eq_value (following_id e) target) (followers s).

Definition select_followers (target : option string) (s : Store)
  : list FollowerEntry :=
  map (join_follower s) (edges_to target s).

Definition is_edge (follower : string) (following : option string)
           (e : FollowRow) : bool :=
  (follower_id e =? follower) && eq_value (following_id e) following.

Definition select_follow_edge (follower : string) (following : option string)
           (s : Store) : list nat :=
  map follow_row_id (filter (is_edge follower following) (followers s)).

Definition with_followers (s : Store) (l : list FollowRow) (n : nat) : Store :=
  {| profiles := profiles s;
     mentor_details_tbl := mentor_details_tbl s;
     team_details_tbl := team_details_tbl s;
     followers := l;
     connections := connections s;
     next_row_id := n |}.

Definition with_connections (s : Store) (l : list ConnectionRow) (n : nat)
  : Store :=
  {| profiles := profiles s;
     mentor_details_tbl := mentor_details_tbl s;
     team_details_tbl := team_details_tbl s;
     followers := followers s;
     connections := l;
     next_row_id := n |}.

(** [.delete().eq('follower_id', a).eq('following_id', b)] removes every
    matching row. *)
Definition delete_follow (follower following : string) (s : Store) : Store :=
  with_followers s
    (filter (fun e => negb (is_edge follower (Some following) e)) (followers s))
    (next_row_id s).

Definition insert_follow (follower following : string) (s : Store) : Store :=
  with_followers s
    (followers s ++ [ {| follow_row_id := next_row_id s;
                         follower_id := follower;
                         following_id := following |} ])
    (S (next_row_id s)).

Definition matches (filters : list (ConnectionColumn * string))
           (r : ConnectionRow) : bool :=
  forallb (fun f => column_value (fst f) r =? snd f) filters.

Definition select_connection (filters : list (ConnectionColumn * string))
           (s : Store) : list nat :=
  map connection_row_id (filter (matches filters) (connections s)).

Definition insert_connection (m t st : string) (s : Store) : Store :=
  with_connections s
    (connections s ++ [ {| connection_row_id := next_row_id s;
                           mentor_id := m;
                           team_id := t;
                           status := st |} ])
    (S (next_row_id s)).

(** The requests the page builds. *)
Inductive Request :=
| SelectProfile (target : option string)
| SelectFollowers (target : option string)
| SelectFollowEdge (follower : string) (following : option string)
| DeleteFollow (follower following : string)
| InsertFollow (follower following : string)
| SelectConnection (filters : list (ConnectionColumn * string))
| InsertConnection (m t st : string).

End Db.

(** ** Component state, props and context *)

(** The six [useState] cells. *)
Record UI := {
  profile : option Profile;
  isFollowing : bool;
  followerCount : nat;
  followers : list FollowerProfile;
  showFollowers : bool;
  loading : bool
}.

(** The initial values given to [useState]. *)
Definition initial_ui : UI :=
  {| profile := None;
     isFollowing := false;
     followerCount := 0;
     followers := [];
     showFollowers := false;
     loading := true |}.

(** The [profileId] prop and the profile supplied by [useAuth()]. *)
Record Env := {
  profileId : option string;
  currentProfile : option Profile
}.

(** [profileId || currentProfile?.id] *)
Definition targetProfileId (env : Env) : option string :=
  match profileId env with
  | Some s => if truthy s then Some s else option_map (fun c : Profile => id c) (currentProfile env)
  | None => option_map (fun c : Profile => id c) (currentProfile env)
  end.

Inductive Event :=
| Sent (r : Db.Request)
| Navigated (view : string) (target : option string).

(** [faults] plans the transport: each request consumes the head, [true]
    meaning that this request fails without reaching the store; an
    exhausted plan means no further failure. *)
Record World := {
  store : Db.Store;
  ui : UI;
  faults : list bool;
  trace : list Event
}.

Inductive JsError := TypeError.

Inductive Outcome (A : Type) :=
| Returned (a : A)
| Threw (e : JsError).
Arguments Threw {A} e.

Definition Handler (A : Type) := World -> Outcome A * World.

Definition ret {A : Type} (a : A) : Handler A := fun w => (Returned a, w).

Definition bind {A B : Type} (m : Handler A) (k : A -> Handler B) : Handler B :=
  fun w =>
    match m w with
    | (Returned a, w1) => k a w1
    | (Threw e, w1) => (Threw e, w1)
    end.

Definition throw {A : Type} (e : JsError) : Handler A := fun w => (Threw e, w).

Notation "x <- m ;; k" := (bind m (fun x => k))
  (at level 61, m at next level, right associativity).
Notation "m ;; k" := (bind m (fun _ => k))
  (at level 61, right associativity).

(** The world a handler leaves behind. *)
Definition exec {A : Type} (m : Handler A) (w : World) : World := snd (m w).

Definition with_ui (w : World) (u : UI) : World :=
  {| store := store w; ui := u; faults := faults w; trace := trace w |}.

Definition log_event (e : Event) (w : World) : World :=
  {| store := store w; ui := ui w; faults := faults w;
     trace := trace w ++ [e] |}.

(** *** State setters *)

Definition setProfile (v : option Profile) : Handler unit := fun w =>
  (Returned tt,
   with_ui w {| profile := v;
                isFollowing := isFollowing (ui w);
                followerCount := followerCount (ui w);
                followers := followers (ui w);
                showFollowers := showFollowers (ui w);
                loading := loading (ui w) |}).

Definition setIsFollowing (v : bool) : Handler unit := fun w =>
  (Returned tt,
   with_ui w {| profile := profile (ui w);
                isFollowing := v;
                followerCount := followerCount (ui w);
                followers := followers (ui w);
                showFollowers := showFollowers (ui w);
                loading := loading (ui w) |}).

Definition setFollowerCount (v : nat) : Handler unit := fun w =>
  (Returned tt,
   with_ui w {| profile := profile (ui w);
                isFollowing := isFollowing (ui w);
                followerCount := v;
                followers := followers (ui w);
                showFollowers := showFollowers (ui w);
                loading := loading (ui w) |}).

Definition setFollowers (v : list FollowerProfile) : Handler unit := fun w =>
  (Returned tt,
   with_ui w {| profile := profile (ui w);
                isFollowing := isFollowing (ui w);
                followerCount := followerCount (ui w);
                followers := v;
                showFollowers := showFollowers (ui w);
                loading := loading (ui w) |}).

Definition setShowFollowers (v : bool) : Handler unit := fun w =>
  (Returned tt,
   with_ui w {| profile := profile (ui w);
                isFollowing := isFollowing (ui w);
                followerCount := followerCount (ui w);
                followers := followers (ui w);
                showFollowers := v;
                loading := loading (ui w) |}).

Definition setLoading (v : bool) : Handler unit := fun w =>
  (Returned tt,
   with_ui w {| profile := profile (ui w);
                isFollowing := isFollowing (ui w);
                followerCount := followerCount (ui w);
                followers := followers (ui w);
                showFollowers := showFollowers (ui w);
                loading := v |}).

(** [onNavigate(view, id)] *)
Definition onNavigate (view : string) (target : option string) : Handler unit :=
  fun w => (Returned tt, log_event (Navigated view target) w).

(** ** The Supabase client *)

(** Modelled from the spec: the client library is an external collaborator.
    A request is recorded on the trace and consumes one entry of the fault
    plan.  When it goes through, [run] is applied to the store and the
    answer is the [data] of the response; when it fails the store is not
    touched and [data] is null.  The client never throws: failures only
    show as a null [data]. *)
Definition send {A : Type} (r : Db.Request) (run : Db.Store -> Db.Store * A)
  : Handler (option A) :=
  fun w =>
    let fails := hd false (faults w) in
    (Returned (if fails then None else Some (snd (run (store w)))),
     {| store := if fails then store w else fst (run (store w));
        ui := ui w;
        faults := tl (faults w);
        trace := trace w ++ [Sent r] |}).

(** [.maybeSingle()]: the single row when the result has exactly one, null
    when it has none, and an error (null [data]) when it has several. *)
Definition maybeSingle {A : Type} (rows : list A) : option A :=
  match rows with
  | [x] => Some x
  | _ => None
  end.

Definition select {A : Type} (r : Db.Request) (q : Db.Store -> list A)
  : Handler (option (list A)) :=
  send r (fun s => (s, q s)).

Definition select_maybeSingle {A : Type} (r : Db.Request) (q : Db.Store -> list A)
  : Handler (option A) :=
  data <- send r (fun s => (s, maybeSingle (q s))) ;;
  ret (match data with Some d => d | None => None end).

Definition mutate (r : Db.Request) (f : Db.Store -> Db.Store) : Handler unit :=
  send r (fun s => (f s, tt)) ;; ret tt.

(** ** The handlers of the component *)

Definition loadProfile (env : Env) : Handler unit :=
  data <- select_maybeSingle (Db.SelectProfile (targetProfileId env))
            (Db.select_profile (targetProfileId env)) ;;
  setProfile data ;;
  setLoading false.

Definition loadFollowerInfo (env : Env) : Handler unit :=
  match currentProfile env with
  | None => ret tt
  | Some current =>
      followersList <- select (Db.SelectFollowers (targetProfileId env))
                         (Db.select_followers (targetProfileId env)) ;;
      setFollowerCount
        (match followersList with Some l => length l | None => 0 end) ;;
      setFollowers
        (match followersList with
         | Some l => filter_Boolean (map entry_profiles l)
         | None => []
         end) ;;
      if negb (Db.eq_value (id current) (targetProfileId env)) then
        following <- select_maybeSingle
                       (Db.SelectFollowEdge (id current) (targetProfileId env))
                       (Db.select_follow_edge (id current) (targetProfileId env)) ;;
        setIsFollowing (isSome following)
      else ret tt
  end.

(** The effect run when [targetProfileId] changes.  Both loads are started;
    they only read the store and write disjoint state cells, so running
    them one after the other loses nothing in a sequential model. *)
Definition useEffect (env : Env) : Handler unit :=
  match targetProfileId env with
  | Some t => if truthy t then loadProfile env ;; loadFollowerInfo env else ret tt
  | None => ret tt
  end.

(** [toggleFollow] is a closure over the state of the render [r] that
    created it: it reads [profile] and [isFollowing] from [r]. *)
Definition toggleFollow (env : Env) (r : UI) : Handler unit :=
  match currentProfile env, profile r with
  | Some current, Some target =>
      (if isFollowing r
       then mutate (Db.DeleteFollow (id current) (id target))
                   (Db.delete_follow (id current) (id target))
       else mutate (Db.InsertFollow (id current) (id target))
                   (Db.insert_follow (id current) (id target))) ;;
      setIsFollowing (negb (isFollowing r)) ;;
      loadFollowerInfo env
  | _, _ => ret tt
  end.

(** [currentProfile?.user_type === 'mentor'] *)
Definition isMentor (env : Env) : bool :=
  match currentProfile env with
  | Some current => UserType_eqb (user_type current) mentor
  | None => false
  end.

(** [currentProfile!.id]: the assertion is erased at run time, reading
    [id] of an absent profile throws. *)
Definition non_null {A : Type} (o : option A) : Handler A :=
  match o with
  | Some a => ret a
  | None => throw TypeError
  end.

(** The object literal handed to [insert]:
    [{ mentor_id, team_id, status: 'accepted' }]. *)
Definition new_connection (env : Env) (current target : Profile)
  : string * string * string :=
  (if isMentor env then id current else id target,
   if isMentor env then id target else id current,
   "accepted").

(** A query that is built and dropped.  The client's query builders are
    lazy: a request leaves only when the builder is awaited or given a
    [.then()].  A builder that is neither sends nothing, so the trace and
    the store stay as they are. *)
Definition unsent (r : Db.Request) (f : Db.Store -> Db.Store) : Handler unit :=
  ret tt.

(** The [onClick] of the "Mensagem" button, for the rendered profile
    [target].  The existence query is given a [.then()] and is sent; the
    insert inside its callback is a bare expression statement, neither
    awaited nor chained, so it is built and never sent. *)
Definition connect (env : Env) (target : Profile) : Handler unit :=
  let targetType :=
    if UserType_eqb (user_type target) mentor
    then Db.col_mentor_id else Db.col_team_id in
  let currentType :=
    if isMentor env then Db.col_mentor_id else Db.col_team_id in
  current <- non_null (currentProfile env) ;;
  data <- select_maybeSingle
            (Db.SelectConnection
               [(targetType, id target); (currentType, id (current : Profile))])
            (Db.select_connection
               [(targetType, id target); (currentType, id (current : Profile))]) ;;
  (if isSome data then ret tt
   else let '(m, t, st) := new_connection env current target in
        unsent (Db.InsertConnection m t st) (Db.insert_connection m t st)) ;;
  onNavigate "profile" (Some (id target)).

(** ** Rendering *)

Inductive Click :=
| ClickNavigate (view : string) (target : option string)
| ClickToggleFollow
| ClickConnect
| ClickShowFollowers.

(** The parts of the profile view that carry behaviour: which buttons
    exist, the follower counter and the follower panel. *)
Record Page := {
  page_profile : Profile;
  page_back : Click;
  isOwnProfile : bool;
  follow_button : option bool;
  connect_button : option Click;
  edit_button : option Click;
  shown_follower_count : nat;
  followers_panel : option (list FollowerProfile)
}.

Inductive View :=
| Spinner
| NotFound (back : Click)
| ProfilePage (p : Page).

(** [currentProfile?.user_type !== profile.user_type] *)
Definition user_type_differs (env : Env) (p : Profile) : bool :=
  match currentProfile env with
  | Some current => negb (UserType_eqb (user_type current) (user_type p))
  | None => true
  end.

Definition render (env : Env) (r : UI) : View :=
  if loading r then Spinner
  else
    match profile r with
    | None => NotFound (ClickNavigate "dashboard" None)
    | Some p =>
        let own :=
          match currentProfile env with
          | Some current => id current =? id p
          | None => false
          end in
        ProfilePage
          {| page_profile := p;
             page_back := ClickNavigate "dashboard" None;
             isOwnProfile := own;
             follow_button := if own then None else Some (isFollowing r);
             connect_button :=
               if negb own && user_type_differs env p
               then Some ClickConnect else None;
             edit_button :=
               if own then Some (ClickNavigate "edit-profile" None) else None;
             shown_follower_count := followerCount r;
             followers_panel :=
               if showFollowers r && Nat.ltb 0 (length (followers r))
               then Some (followers r) else None |}
    end.

(** What a click does, for the handlers created by the render of [r]. *)
Definition handle (env : Env) (r : UI) (c : Click) : Handler unit :=
  match c with
  | ClickNavigate view target => onNavigate view target
  | ClickToggleFollow => toggleFollow env r
  | ClickConnect =>
      match profile r with
      | Some p => connect env p
      | None => ret tt
      end
  | ClickShowFollowers => setShowFollowers (negb (showFollowers r))
  end.

(** ** The rest of the page *)

(** The middle counter of the profile view:
    [mentor_details?.knowledge_areas.length || 0] for a mentor,
    [team_details?.interest_areas.length || 0] otherwise. *)
Definition areas_counter (p : Profile) : nat :=
  match user_type p with
  | mentor =>
      match mentor_details p with
      | Some d => length (knowledge_areas d)
      | None => 0
      end
  | team =>
      match team_details p with
      | Some d => length (interest_areas d)
      | None => 0
      end
  end.

(** The chips of the knowledge section, rendered when
    [user_type === 'mentor' && mentor_details]. *)
Definition knowledge_chips (p : Profile) : list string :=
  match user_type p, mentor_details p with
  | mentor, Some d => knowledge_areas d
  | _, _ => []
  end.

(** The chips of the team section, rendered when
    [user_type === 'team' && team_details] and
    [interest_areas.length > 0]. *)
Definition interest_chips (p : Profile) : list string :=
  match user_type p, team_details p with
  | team, Some d =>
      if Nat.ltb 0 (length (interest_areas d)) then interest_areas d else []
  | _, _ => []
  end.

(** The follower cards, rendered when
    [showFollowers && followers.length > 0]; a card navigates to the
    profile of the follower it shows. *)
Definition follower_cards (r : UI) : list (FollowerProfile * Click) :=
  if showFollowers r && Nat.ltb 0 (length (followers r))
  then map (fun f => (f, ClickNavigate "profile" (Some (fp_id f)))) (followers r)
  else [].

Definition button (o : option Click) : list Click :=
  match o with Some c => [c] | None => [] end.

(** Every control the rendered view offers, in document order: the back
    button, the avatar (which navigates only on one's own profile), the
    follow, connect and edit buttons, the follower counter and the
    follower cards. *)
Definition controls (env : Env) (r : UI) : list Click :=
  match render env r with
  | Spinner => []
  | NotFound back => [back]
  | ProfilePage pg =>
      page_back pg ::
      (if isOwnProfile pg then [ClickNavigate "edit-profile" None] else []) ++
      (match follow_button pg with Some _ => [ClickToggleFollow] | None => [] end) ++
      button (connect_button pg) ++
      button (edit_button pg) ++
      ClickShowFollowers ::
      map snd (follower_cards r)
  end.

(** The requests that only read the store. *)
Definition is_query (e : Event) : bool :=
  match e with
  | Sent (Db.SelectProfile _)
  | Sent (Db.SelectFollowers _)
  | Sent (Db.SelectFollowEdge _ _)
  | Sent (Db.SelectConnection _) => true
  | _ => false
  end.

(** ** Vocabulary of the statements *)

(** A world in which no planned request fails. *)
Definition reliable (w : World) : Prop := forallb negb (faults w) = true.

(** The answer to the follower query: null when the request fails. *)
Definition followersList_of (env : Env) (w : World) : option (list FollowerEntry) :=
  if hd false (faults w) then None
  else Some (Db.select_followers (targetProfileId env) (store w)).

Definition or_empty {A : Type} (o : option (list A)) : list A :=
  match o with Some l => l | None => [] end.

(** The world in which [toggleFollow] starts its reload: the mutation has
    been sent and the flag flipped. *)
Definition toggled (viewer target : string) (r : UI) (w : World) : World :=
  {| store :=
       if hd false (faults w) then store w
       else if isFollowing r
            then Db.delete_follow viewer target (store w)
            else Db.insert_follow viewer target (store w);
     ui := {| profile := profile (ui w);
              isFollowing := negb (isFollowing r);
              followerCount := followerCount (ui w);
              followers := followers (ui w);
              showFollowers := showFollowers (ui w);
              loading := loading (ui w) |};
     faults := tl (faults w);
     trace :=
       trace w ++
       [Sent (if isFollowing r
              then Db.DeleteFollow viewer target
              else Db.InsertFollow viewer target)] |}.

(** The identifiers of the mentor side and of the team side of a viewer
    and a target of different roles. *)
Definition canonical_pair (viewer target : Profile) (m t : string) : Prop :=
  (user_type viewer = mentor /\ user_type target = team
   /\ m = id viewer /\ t = id target)
  \/ (user_type viewer = team /\ user_type target = mentor
      /\ m = id target /\ t = id viewer).

(** The connection rows stored for a (mentor, team) pair. *)
Definition pair_rows (m t : string) (s : Db.Store) : list Db.ConnectionRow :=
  filter (fun r => (Db.mentor_id r =? m) && (Db.team_id r =? t)) (Db.connections s).

(** ** Scenarios used to exercise the model *)

Module Scenario.

Definition row (i : string) (t : UserType) (name : string) : ProfileRow :=
  {| id := i; user_type := t; full_name := name; email := "";
     state := "SP"; city := "Campinas"; bio := "";
     avatar_url := None; cover_image_url := None; linkedin_url := None;
     is_public := true; created_at := "2024-01-01" |}.

Definition ana : ProfileRow := row "ana" mentor "Ana".
Definition bots : ProfileRow := row "bots" team "Bots".
Definition caio : ProfileRow := row "caio" mentor "Caio".

Definition ana_details : MentorDetails :=
  {| mentor_ftc := true; mentor_fll := false;
     knowledge_areas := ["CAD"; "Java"] |}.

Definition bots_details : TeamDetails :=
  {| team_number := "16052"; team_type := FTC;
     interest_areas := ["Programming"] |}.

Definition edge (n : nat) (a b : string) : Db.FollowRow :=
  {| Db.follow_row_id := n; Db.follower_id := a; Db.following_id := b |}.

Definition link (n : nat) (m t : string) : Db.ConnectionRow :=
  {| Db.connection_row_id := n; Db.mentor_id := m; Db.team_id := t;
     Db.status := "accepted" |}.

(** Ana, Bots and Caio are registered; Caio follows Bots. *)
Definition base : Db.Store :=
  {| Db.profiles := [ana; bots; caio];
     Db.mentor_details_tbl := [("ana", ana_details)];
     Db.team_details_tbl := [("bots", bots_details)];
     Db.followers := [edge 0 "caio" "bots"];
     Db.connections := [];
     Db.next_row_id := 1 |}.

(** As [base], with one more follower of Bots, Dora, who has no row
    in [profiles]. *)
Definition orphan_edge : Db.Store :=
  Db.with_followers base [edge 0 "caio" "bots"; edge 1 "dora" "bots"] 2.

(** As [base], with the one connection row of the pair (Ana, Bots). *)
Definition linked : Db.Store :=
  Db.with_connections base [link 1 "ana" "bots"] 2.

Definition as_viewer (r : ProfileRow) (s : Db.Store) : Profile :=
  Db.embed_details s r.

(** Ana, signed in, opens the profile of Bots. *)
Definition ana_views_bots : Env :=
  {| profileId := Some "bots"; currentProfile := Some (as_viewer ana base) |}.

(** Nobody is signed in and the profile of Bots is opened. *)
Definition anonymous_views_bots : Env :=
  {| profileId := Some "bots"; currentProfile := None |}.

Definition fresh (s : Db.Store) (plan : list bool) : World :=
  {| store := s; ui := initial_ui; faults := plan; trace := [] |}.

(** The page once its effect has run. *)
Definition mounted (env : Env) (s : Db.Store) : World :=
  exec (useEffect env) (fresh s []).

End Scenario.

Example ana_sees_bots :
  let w := Scenario.mounted Scenario.ana_views_bots Scenario.base in
  option_map (fun p : Profile => id p) (profile (ui w)) = Some "bots"
  /\ followerCount (ui w) = 1
  /\ map fp_id (followers (ui w)) = ["caio"]
  /\ isFollowing (ui w) = false
  /\ loading (ui w) = false.
Proof. repeat split. Qed.

Example ana_follows_bots :
  let w := Scenario.mounted Scenario.ana_views_bots Scenario.base in
  let w' := exec (handle Scenario.ana_views_bots (ui w) ClickToggleFollow) w in
  followerCount (ui w') = 2
  /\ isFollowing (ui w') = true
  /\ map fp_id (followers (ui w')) = ["caio"; "ana"].
Proof. repeat split. Qed.

(** ** Basic facts about the client *)

Unset Implicit Arguments.

Lemma reliable_hd (w : World) : reliable w -> hd false (faults w) = false.
Proof.
  unfold reliable. destruct (faults w) as [|f fs]; cbn; [reflexivity|].
  destruct f; cbn; [discriminate | reflexivity].
Qed.

Lemma reliable_tl (l : list bool) :
  forallb negb l = true -> forallb negb (tl l) = true.
Proof.
  destruct l as [|f fs]; cbn; [reflexivity|].
  intros H. apply andb_true_iff in H. apply H.
Qed.

Lemma maybeSingle_nil {A : Type} : maybeSingle (@nil A) = None.
Proof. reflexivity. Qed.

Lemma maybeSingle_one {A : Type} (x : A) : maybeSingle [x] = Some x.
Proof. reflexivity. Qed.

Lemma maybeSingle_Some {A : Type} (l : list A) (x : A) :
  maybeSingle l = Some x -> l = [x].
Proof.
  destruct l as [|a [|b l]]; cbn; intros H; try discriminate.
  now inversion H.
Qed.

Lemma filter_Boolean_length {A : Type} (l : list (option A)) :
  length (filter_Boolean l) <= length l.
Proof.
  induction l as [|[a|] l IH]; cbn; lia.
Qed.

Lemma filter_Boolean_full {A : Type} (l : list (option A)) :
  length (filter_Boolean l) = length l <-> (forall o, In o l -> o <> None).
Proof.
  induction l as [|[a|] l IH]; cbn.
  - split; [intros _ o [] | reflexivity].
  - split.
    + intros H o [<-|Ho]; [discriminate|].
      apply IH; [lia | exact Ho].
    + intros H. f_equal. apply IH. intros o Ho. apply H. now right.
  - split.
    + intros H. pose proof (filter_Boolean_length l). lia.
    + intros H. exfalso. apply (H None); [now left | reflexivity].
Qed.

(** ** The Profile Loader *)

(** What [loadProfile] does, whatever the store and the fault plan: one
    request, then the answer goes to [profile] and [loading] is cleared. *)
Lemma loadProfile_run (env : Env) (w : World) :
  loadProfile env w =
  (Returned tt,
   {| store := store w;
      ui := {| profile :=
                 if hd false (faults w) then None
                 else maybeSingle (Db.select_profile (targetProfileId env) (store w));
               isFollowing := isFollowing (ui w);
               followerCount := followerCount (ui w);
               followers := followers (ui w);
               showFollowers := showFollowers (ui w);
               loading := false |};
      faults := tl (faults w);
      trace := trace w ++ [Sent (Db.SelectProfile (targetProfileId env))] |}).
Proof.
  unfold loadProfile, select_maybeSingle, send, bind, ret, setProfile,
    setLoading, with_ui; cbn.
  destruct (hd false (faults w)); reflexivity.
Qed.

Lemma select_profile_none (target : option string) (s : Db.Store) :
  (forall r, In r (Db.profiles s) -> Some (id r) <> target) ->
  Db.select_profile target s = [].
Proof.
  intros H. unfold Db.select_profile.
  induction (Db.profiles s) as [|r l IH]; cbn; [reflexivity|].
  assert (Hr : Db.eq_value (id r) target = false).
  { destruct target as [t|]; cbn; [|reflexivity].
    apply String.eqb_neq. intros E. apply (H r); [now left | now rewrite E]. }
  rewrite Hr. apply IH. intros r' Hr'. apply H. now right.
Qed.

(** C7 : a target with no matching row in [profiles], and likewise a
    request that fails in transport, makes [loadProfile] return normally
    with [profile] set to null and [loading] cleared; the component then
    renders the not-found view, whose only control navigates back to the
    dashboard. *)
Theorem loadProfile_not_found (env : Env) (w : World) :
  (forall r, In r (Db.profiles (store w)) -> Some (id r) <> targetProfileId env)
  \/ hd false (faults w) = true ->
  exists w',
    loadProfile env w = (Returned tt, w')
    /\ profile (ui w') = None
    /\ loading (ui w') = false
    /\ render env (ui w') = NotFound (ClickNavigate "dashboard" None)
    /\ exists w'',
         handle env (ui w') (ClickNavigate "dashboard" None) w' = (Returned tt, w'')
         /\ trace w'' = trace w' ++ [Navigated "dashboard" None].
Proof.
  intros H. rewrite loadProfile_run.
  assert (Hp : (if hd false (faults w) then None
                else maybeSingle (Db.select_profile (targetProfileId env) (store w)))
               = None).
  { destruct H as [H|H].
    - rewrite (select_profile_none _ _ H). now destruct (hd false (faults w)).
    - now rewrite H. }
  rewrite Hp. eexists. split; [reflexivity|].
  repeat split.
  eexists. split; reflexivity.
Qed.

Lemma loadProfile_not_found_witness :
  hd false (faults (Scenario.fresh Scenario.base [true])) = true
  /\ exists w',
    loadProfile Scenario.ana_views_bots (Scenario.fresh Scenario.base [true])
    = (Returned tt, w')
    /\ profile (ui w') = None
    /\ loading (ui w') = false
    /\ render Scenario.ana_views_bots (ui w')
       = NotFound (ClickNavigate "dashboard" None)
    /\ exists w'',
         handle Scenario.ana_views_bots (ui w') (ClickNavigate "dashboard" None) w'
         = (Returned tt, w'')
         /\ trace w'' = trace w' ++ [Navigated "dashboard" None].
Proof.
  split; [reflexivity|].
  apply (loadProfile_not_found Scenario.ana_views_bots
           (Scenario.fresh Scenario.base [true])).
  right. reflexivity.
Defined.






(** ** The Social Graph Mutator: the guard of [toggleFollow] *)

(** C10 : without an authenticated viewer, or without a loaded profile in
    the render that created the handler, [toggleFollow] returns at once:
    the world is left as it was, so no request is sent, the store is
    untouched and every state cell keeps its value. *)
Theorem toggleFollow_guard (env : Env) (r : UI) (w : World) :
  currentProfile env = None \/ profile r = None ->
  toggleFollow env r w = (Returned tt, w)
  /\ trace (exec (toggleFollow env r) w) = trace w
  /\ store (exec (toggleFollow env r) w) = store w
  /\ ui (exec (toggleFollow env r) w) = ui w.
Proof.
  intros H.
  assert (E : toggleFollow env r w = (Returned tt, w)).
  { unfold toggleFollow. destruct H as [H|H]; rewrite H.
    - reflexivity.
    - now destruct (currentProfile env). }
  unfold exec. rewrite E. repeat split.
Qed.

Lemma toggleFollow_guard_witness :
  currentProfile Scenario.anonymous_views_bots = None
  /\ toggleFollow Scenario.anonymous_views_bots
       (ui (Scenario.mounted Scenario.anonymous_views_bots Scenario.base))
       (Scenario.mounted Scenario.anonymous_views_bots Scenario.base)
     = (Returned tt, Scenario.mounted Scenario.anonymous_views_bots Scenario.base).
Proof.
  split; [reflexivity|].
  apply (toggleFollow_guard Scenario.anonymous_views_bots
           (ui (Scenario.mounted Scenario.anonymous_views_bots Scenario.base))
           (Scenario.mounted Scenario.anonymous_views_bots Scenario.base)).
  left. reflexivity.
Defined.

(** ** The Social Graph Reader *)

(** What [loadFollowerInfo] does for an authenticated viewer, whatever the
    store and the fault plan. *)
Lemma loadFollowerInfo_run (env : Env) (current : Profile) (w : World) :
  currentProfile env = Some current ->
  loadFollowerInfo env w =
  (Returned tt,
   let other := negb (Db.eq_value (id current) (targetProfileId env)) in
   {| store := store w;
      ui := {| profile := profile (ui w);
               isFollowing :=
                 if other then
                   if hd false (tl (faults w)) then false
                   else isSome (maybeSingle
                                  (Db.select_follow_edge (id current)
                                     (targetProfileId env) (store w)))
                 else isFollowing (ui w);
               followerCount := length (or_empty (followersList_of env w));
               followers :=
                 filter_Boolean (map entry_profiles (or_empty (followersList_of env w)));
               showFollowers := showFollowers (ui w);
               loading := loading (ui w) |};
      faults := if other then tl (tl (faults w)) else tl (faults w);
      trace :=
        trace w ++
        Sent (Db.SelectFollowers (targetProfileId env)) ::
        (if other
         then [Sent (Db.SelectFollowEdge (id current) (targetProfileId env))]
         else []) |}).
Proof.
  intros Hc. unfold loadFollowerInfo, followersList_of. rewrite Hc.
  unfold select, select_maybeSingle, send, bind, ret, setFollowerCount,
    setFollowers, setIsFollowing, with_ui; cbn.
  destruct (Db.eq_value (id current) (targetProfileId env)); cbn;
    destruct (hd false (faults w)); cbn; try reflexivity;
    destruct (hd false (tl (faults w))); cbn;
    rewrite <- ?app_assoc; reflexivity.
Qed.

Lemma select_followers_length (target : option string) (s : Db.Store) :
  length (Db.select_followers target s) = length (Db.edges_to target s).
Proof. unfold Db.select_followers. apply length_map. Qed.

(** C4 (counterexample) : Dora follows Bots but has no row in [profiles]:
    the reader fetches two edges and sets the count to 2, while the
    follower list built from the same fetch has one entry. *)
Lemma follower_count_list_mismatch :
  let w := exec (loadFollowerInfo Scenario.ana_views_bots)
             (Scenario.fresh Scenario.orphan_edge []) in
  length (Db.edges_to (Some "bots") Scenario.orphan_edge) = 2
  /\ followerCount (ui w) = 2
  /\ map fp_id (followers (ui w)) = ["caio"]
  /\ followerCount (ui w) <> length (followers (ui w)).
Proof. cbn. repeat split. discriminate. Qed.

(** C4 (amended) : after a load cycle run for an authenticated viewer the
    follower count is the raw number of fetched follow edges (the number
    of edges stored for the target when the fetch goes through, 0 when it
    fails), and the follower list is made of the joined profiles of the
    same fetched edges with the absent ones dropped: it never has more
    entries than the count, and has exactly as many if and only if every
    fetched edge carries a joined profile. *)
Theorem loadFollowerInfo_count_and_list (env : Env) (current : Profile) (w : World) :
  currentProfile env = Some current ->
  let w' := exec (loadFollowerInfo env) w in
  let fetched := or_empty (followersList_of env w) in
  followerCount (ui w') = length fetched
  /\ (hd false (faults w) = false ->
      followerCount (ui w') = length (Db.edges_to (targetProfileId env) (store w)))
  /\ followers (ui w') = filter_Boolean (map entry_profiles fetched)
  /\ length (followers (ui w')) <= followerCount (ui w')
  /\ (length (followers (ui w')) = followerCount (ui w')
      <-> forall e, In e fetched -> entry_profiles e <> None).
Proof.
  intros Hc w' fetched. subst w'. unfold exec.
  rewrite (loadFollowerInfo_run env current w Hc). cbn [snd ui followerCount followers].
  fold fetched.
  split; [reflexivity|]. split.
  { intros Hok. subst fetched. unfold followersList_of. rewrite Hok. cbn.
    apply select_followers_length. }
  split; [reflexivity|]. split.
  { rewrite <- (length_map entry_profiles fetched).
    apply filter_Boolean_length. }
  rewrite <- (length_map entry_profiles fetched).
  rewrite filter_Boolean_full. split.
  - intros H e He. apply H. now apply in_map.
  - intros H o Ho. apply in_map_iff in Ho. destruct Ho as (e & <- & He). now apply H.
Qed.

Lemma loadFollowerInfo_count_and_list_witness :
  currentProfile Scenario.ana_views_bots = Some (Scenario.as_viewer Scenario.ana Scenario.base)
  /\ let w' := exec (loadFollowerInfo Scenario.ana_views_bots)
                 (Scenario.fresh Scenario.orphan_edge []) in
     length (followers (ui w')) <= followerCount (ui w').
Proof.
  split; [reflexivity|].
  apply (loadFollowerInfo_count_and_list Scenario.ana_views_bots
           (Scenario.as_viewer Scenario.ana Scenario.base)
           (Scenario.fresh Scenario.orphan_edge []) eq_refl).
Defined.

(** C5 (counterexample) : with nobody signed in and one follower of Bots
    in the store, the reader sends no request and leaves the count at 0
    and the list empty. *)
Lemma anonymous_reader_fetches_nothing :
  let w := Scenario.fresh Scenario.base [] in
  let w' := exec (loadFollowerInfo Scenario.anonymous_views_bots) w in
  currentProfile Scenario.anonymous_views_bots = None
  /\ targetProfileId Scenario.anonymous_views_bots = Some "bots"
  /\ length (Db.edges_to (Some "bots") (store w)) = 1
  /\ trace w' = []
  /\ followerCount (ui w') = 0
  /\ followers (ui w') = [].
Proof. cbn. repeat split. Qed.

(** C5 (amended) : for every target identifier and every authenticated
    viewer, a reader whose request goes through asks for the follow edges
    whose [following_id] is the target, sets the count to their number and
    the list to the summaries (identifier, name, avatar, role) of the
    followers' stored profiles; when no viewer is authenticated the reader
    returns at once, sends nothing and leaves list and count as they
    were. *)
Theorem loadFollowerInfo_reads_store (env : Env) (w : World) :
  (currentProfile env = None -> loadFollowerInfo env w = (Returned tt, w))
  /\ (forall current,
        currentProfile env = Some current ->
        hd false (faults w) = false ->
        let w' := exec (loadFollowerInfo env) w in
        let edges := Db.edges_to (targetProfileId env) (store w) in
        (exists rest,
            trace w' = trace w ++ Sent (Db.SelectFollowers (targetProfileId env)) :: rest)
        /\ (forall e, In e edges <->
                      In e (Db.followers (store w))
                      /\ Some (Db.following_id e) = targetProfileId env)
        /\ followerCount (ui w') = length edges
        /\ followers (ui w') =
           filter_Boolean
             (map (fun e =>
                     option_map
                       (fun r => {| fp_id := id r;
                                    fp_full_name := full_name r;
                                    fp_avatar_url := avatar_url r;
                                    fp_user_type := user_type r |})
                       (find (fun r => id r =? Db.follower_id e)
                             (Db.profiles (store w))))
                  edges)).
Proof.
  split.
  { intros Hc. unfold loadFollowerInfo. now rewrite Hc. }
  intros current Hc Hok w' edges. subst w'. unfold exec.
  rewrite (loadFollowerInfo_run env current w Hc).
  cbn [snd ui trace followerCount followers].
  unfold followersList_of. rewrite Hok. cbn [or_empty].
  split; [eexists; reflexivity|]. split.
  { intros e. subst edges. unfold Db.edges_to. rewrite filter_In.
    split; intros [Hin He]; split; try assumption.
    - destruct (targetProfileId env) as [t|]; cbn in He; [|discriminate].
      apply String.eqb_eq in He. now rewrite He.
    - rewrite <- He. cbn. apply String.eqb_refl. }
  split; [apply select_followers_length|].
  unfold Db.select_followers. rewrite map_map. reflexivity.
Qed.

Lemma loadFollowerInfo_reads_store_witness :
  currentProfile Scenario.ana_views_bots
  = Some (Scenario.as_viewer Scenario.ana Scenario.base)
  /\ hd false (faults (Scenario.fresh Scenario.base [])) = false
  /\ let w' := exec (loadFollowerInfo Scenario.ana_views_bots)
                 (Scenario.fresh Scenario.base []) in
     followerCount (ui w')
     = length (Db.edges_to (targetProfileId Scenario.ana_views_bots) Scenario.base).
Proof.
  split; [reflexivity|]. split; [reflexivity|].
  apply (proj2 (loadFollowerInfo_reads_store Scenario.ana_views_bots
                  (Scenario.fresh Scenario.base []))
           (Scenario.as_viewer Scenario.ana Scenario.base) eq_refl eq_refl).
Defined.

(** ** The Social Graph Mutator *)

Lemma mutate_run (r : Db.Request) (f : Db.Store -> Db.Store) (w : World) :
  mutate r f w =
  (Returned tt,
   {| store := if hd false (faults w) then store w else f (store w);
      ui := ui w;
      faults := tl (faults w);
      trace := trace w ++ [Sent r] |}).
Proof. reflexivity. Qed.

Lemma toggleFollow_run (env : Env) (current target : Profile) (r : UI) (w : World) :
  currentProfile env = Some current ->
  profile r = Some target ->
  toggleFollow env r w
  = loadFollowerInfo env (toggled (id current) (id target) r w).
Proof.
  intros Hc Hp. unfold toggleFollow, toggled. rewrite Hc, Hp.
  destruct (isFollowing r); unfold bind; rewrite mutate_run; cbn;
    destruct (hd false (faults w)); reflexivity.
Qed.

(** C1 : with an authenticated viewer and a loaded profile, [toggleFollow]
    is a two-state machine on [isFollowing].  When the flag is set it sends
    the delete of the (viewer, target) edges, when it is clear it sends
    the insert of that edge; a request that goes through removes every
    such edge, respectively appends one.  The flag is then flipped, the
    count and the list being left alone, and from the world [w1] so
    reached the handler continues as [loadFollowerInfo]: the followers of
    the target are fetched again and count and list are overwritten with
    what this fetch returns. *)
Theorem toggleFollow_transitions (env : Env) (current target : Profile) (w : World) :
  currentProfile env = Some current ->
  profile (ui w) = Some target ->
  let following := isFollowing (ui w) in
  let request :=
    if following then Db.DeleteFollow (id current) (id target)
    else Db.InsertFollow (id current) (id target) in
  exists w1 : World,
    trace w1 = trace w ++ [Sent request]
    /\ (hd false (faults w) = false ->
        Db.followers (store w1) =
        if following
        then filter (fun e => negb ((Db.follower_id e =? id current)
                                    && (Db.following_id e =? id target)))
                    (Db.followers (store w))
        else Db.followers (store w) ++
             [ {| Db.follow_row_id := Db.next_row_id (store w);
                  Db.follower_id := id current;
                  Db.following_id := id target |} ])
    /\ isFollowing (ui w1) = negb following
    /\ followerCount (ui w1) = followerCount (ui w)
    /\ followers (ui w1) = followers (ui w)
    /\ toggleFollow env (ui w) w = loadFollowerInfo env w1
    /\ let w' := exec (toggleFollow env (ui w)) w in
       (exists rest,
           trace w' = trace w1 ++ Sent (Db.SelectFollowers (targetProfileId env)) :: rest)
       /\ followerCount (ui w') = length (or_empty (followersList_of env w1))
       /\ followers (ui w')
          = filter_Boolean (map entry_profiles (or_empty (followersList_of env w1))).
Proof.
  intros Hc Hp following request.
  exists (toggled (id current) (id target) (ui w) w).
  pose proof (toggleFollow_run env current target (ui w) w Hc Hp) as Hstep.
  split; [reflexivity|]. split.
  { intros Hok. cbn [store toggled]. rewrite Hok. fold following.
    destruct following; reflexivity. }
  do 3 (split; [reflexivity|]). split; [exact Hstep|].
  cbv zeta. unfold exec. rewrite Hstep.
  rewrite (loadFollowerInfo_run env current _ Hc).
  cbn [snd ui trace followerCount followers].
  split; [eexists; reflexivity|]. split; reflexivity.
Qed.

Lemma toggleFollow_transitions_witness :
  let env := Scenario.ana_views_bots in
  let w := Scenario.mounted env Scenario.base in
  currentProfile env = Some (Scenario.as_viewer Scenario.ana Scenario.base)
  /\ profile (ui w) = Some (Scenario.as_viewer Scenario.bots Scenario.base)
  /\ exists w1 : World,
       trace w1 = trace w ++ [Sent (Db.InsertFollow "ana" "bots")]
       /\ (hd false (faults w) = false ->
           Db.followers (store w1)
           = [Scenario.edge 0 "caio" "bots"; Scenario.edge 1 "ana" "bots"])
       /\ isFollowing (ui w1) = true
       /\ followerCount (ui w1) = 1
       /\ followers (ui w1) = followers (ui w)
       /\ toggleFollow env (ui w) w = loadFollowerInfo env w1.
Proof.
  intros env w. split; [reflexivity|]. split; [reflexivity|].
  destruct (toggleFollow_transitions env
              (Scenario.as_viewer Scenario.ana Scenario.base)
              (Scenario.as_viewer Scenario.bots Scenario.base) w
              eq_refl eq_refl)
    as (w1 & Htrace & Hstore & Hflag & Hcount & Hlist & Hstep & _).
  exists w1. repeat split; assumption.
Defined.

(** ** Counting followers across a toggle *)

Section Counting.

Variables (A : Type) (P Q : A -> bool).
Hypothesis Q_in_P : forall a, Q a = true -> P a = true.


End Counting.


Lemma edges_to_insert (a t : string) (s : Db.Store) :
  length (Db.edges_to (Some t) (Db.insert_follow a t s))
  = length (Db.edges_to (Some t) s) + 1.
Proof.
  unfold Db.edges_to, Db.insert_follow. cbn.
  rewrite filter_app, length_app. cbn. rewrite String.eqb_refl. reflexivity.
Qed.



(** The count does not move at all when the insert itself fails in
    transport, although flag and count agreed with the store. *)
Example follow_fails_in_transport :
  let env := Scenario.ana_views_bots in
  let w := exec (useEffect env)
             (Scenario.fresh Scenario.base [false; false; false; true]) in
  let w' := exec (toggleFollow env (ui w)) w in
  isFollowing (ui w) = false
  /\ followerCount (ui w) = 1
  /\ followerCount (ui w') = 1
  /\ isFollowing (ui w') = false.
Proof. repeat split. Qed.



Example caio_unfollows_bots :
  let env := {| profileId := Some "bots";
                currentProfile := Some (Scenario.as_viewer Scenario.caio Scenario.base) |} in
  let w := Scenario.mounted env Scenario.base in
  let w' := exec (handle env (ui w) ClickToggleFollow) w in
  isFollowing (ui w) = true /\ followerCount (ui w) = 1
  /\ isFollowing (ui w') = false /\ followerCount (ui w') = 0
  /\ Db.followers (store w') = [].
Proof. repeat split. Qed.

(** X14: the agreement between local state and store that the count
    argument starts from is what the page's effect establishes.  For a
    signed-in viewer other than the target and requests that go through,
    the effect leaves the store alone, the count is the number of edges
    stored for the target, the flag is the answer of the existence query
    and a loaded profile carries the target's identifier. *)
Lemma useEffect_agrees (env : Env) (current : Profile) (t : string) (w : World) :
  currentProfile env = Some current ->
  targetProfileId env = Some t ->
  truthy t = true ->
  id current <> t ->
  reliable w ->
  let w' := exec (useEffect env) w in
  store w' = store w
  /\ followerCount (ui w') = length (Db.edges_to (Some t) (store w))
  /\ isFollowing (ui w')
     = isSome (maybeSingle (Db.select_follow_edge (id current) (Some t) (store w)))
  /\ (forall p, profile (ui w') = Some p -> id p = t).
Proof.
  intros Hc Ht Htruthy Hother Hrel w'. subst w'.
  pose proof (reliable_hd w Hrel) as H0.
  unfold reliable in Hrel. apply reliable_tl in Hrel.
  assert (H1 : hd false (tl (faults w)) = false).
  { destruct (tl (faults w)) as [|f fs]; [reflexivity|].
    cbn in *. destruct f; [discriminate | reflexivity]. }
  apply reliable_tl in Hrel.
  assert (H2 : hd false (tl (tl (faults w))) = false).
  { destruct (tl (tl (faults w))) as [|f fs]; [reflexivity|].
    cbn in *. destruct f; [discriminate | reflexivity]. }
  unfold exec, useEffect. rewrite Ht, Htruthy. unfold bind.
  rewrite loadProfile_run, (loadFollowerInfo_run env current _ Hc).
  cbn [snd store ui faults followerCount isFollowing profile].
  unfold followersList_of. cbn [faults store]. rewrite H0, H1, H2, Ht.
  cbn [or_empty Db.eq_value].
  apply String.eqb_neq in Hother. rewrite Hother. cbn [negb].
  split; [reflexivity|]. split; [apply select_followers_length|].
  split; [reflexivity|].
  intros p Hp. apply maybeSingle_Some in Hp.
  assert (Hin : In p (Db.select_profile (Some t) (store w))) by (rewrite Hp; now left).
  unfold Db.select_profile in Hin. apply in_map_iff in Hin.
  destruct Hin as (r & <- & Hr). apply filter_In in Hr.
  cbn. now apply String.eqb_eq.
Qed.

(** ** The Connection Initiator *)

Lemma reliable_hd_tl (w : World) : reliable w -> hd false (tl (faults w)) = false.
Proof.
  unfold reliable. intros H. apply reliable_tl in H.
  destruct (tl (faults w)) as [|f fs]; [reflexivity|].
  cbn in *. destruct f; [discriminate | reflexivity].
Qed.

Lemma roles_differ (viewer target : Profile) :
  user_type viewer <> user_type target ->
  exists m t, canonical_pair viewer target m t.
Proof.
  intros H. unfold canonical_pair.
  destruct (user_type viewer) eqn:Hv, (user_type target) eqn:Ht;
    try congruence.
  - exists (id viewer), (id target). left. repeat split.
  - exists (id target), (id viewer). right. repeat split.
Qed.

(** The filters, the row and the flag the handler computes for a viewer
    and a target of different roles. *)
Lemma connect_canonical (env : Env) (current target : Profile) (m t : string) :
  currentProfile env = Some current ->
  canonical_pair current target m t ->
  (if isMentor env then id current else id target) = m
  /\ (if isMentor env then id target else id current) = t
  /\ forall s,
       filter (Db.matches
                 [(if UserType_eqb (user_type target) mentor
                   then Db.col_mentor_id else Db.col_team_id, id target);
                  (if isMentor env then Db.col_mentor_id else Db.col_team_id,
                   id current)])
              (Db.connections s)
       = pair_rows m t s.
Proof.
  intros Hc [(Hv & Ht & -> & ->)|(Hv & Ht & -> & ->)];
    unfold isMentor; rewrite Hc, Hv, Ht; cbn [UserType_eqb];
    (split; [reflexivity|]); (split; [reflexivity|]);
    intros s; unfold pair_rows; apply filter_ext; intros r;
    unfold Db.matches; cbn; rewrite andb_true_r.
  - apply andb_comm.
  - reflexivity.
Qed.

(** What the handler does for an authenticated viewer, whatever the roles,
    the store and the fault plan: the existence query, then the
    navigation.  The insert of the callback never leaves. *)
Lemma connect_run (env : Env) (current target : Profile) (w : World) :
  currentProfile env = Some current ->
  let filters :=
    [(if UserType_eqb (user_type target) mentor
      then Db.col_mentor_id else Db.col_team_id, id target);
     (if isMentor env then Db.col_mentor_id else Db.col_team_id, id current)] in
  connect env target w =
  (Returned tt,
   {| store := store w;
      ui := ui w;
      faults := tl (faults w);
      trace :=
        trace w ++
        [Sent (Db.SelectConnection filters);
         Navigated "profile" (Some (id target))] |}).
Proof.
  intros Hc. unfold connect. rewrite Hc.
  unfold non_null, select_maybeSingle, unsent, new_connection, send, bind, ret,
    onNavigate, log_event; cbn.
  destruct (hd false (faults w)); cbn.
  - rewrite <- app_assoc. reflexivity.
  - destruct (maybeSingle _); cbn; rewrite <- app_assoc; reflexivity.
Qed.

Lemma new_connection_canonical (env : Env) (current target : Profile) (m t : string) :
  currentProfile env = Some current ->
  canonical_pair current target m t ->
  new_connection env current target = (m, t, "accepted").
Proof.
  intros Hc Hpair.
  destruct (connect_canonical env current target m t Hc Hpair) as (Hm & Ht & _).
  unfold new_connection. now rewrite Hm, Ht.
Qed.

(** C2: Ana, a mentor, opens the profile of the team Bots; no connection
    is stored and no request fails.  Pressing "Mensagem" builds the row
    with Ana as mentor, Bots as team and status [accepted], but the only
    request that leaves is the existence query: the trace shows the query
    and the navigation, and no connection row is stored afterwards. *)
Theorem connect_builds_but_never_inserts :
  let env := Scenario.ana_views_bots in
  let viewer := Scenario.as_viewer Scenario.ana Scenario.base in
  let target := Scenario.as_viewer Scenario.bots Scenario.base in
  let w := Scenario.mounted env Scenario.base in
  let w' := exec (handle env (ui w) ClickConnect) w in
  user_type viewer <> user_type target
  /\ faults w = []
  /\ Db.connections (store w) = []
  /\ new_connection env viewer target = ("ana", "bots", "accepted")
  /\ skipn (length (trace w)) (trace w')
     = [Sent (Db.SelectConnection [(Db.col_team_id, "bots"); (Db.col_mentor_id, "ana")]);
        Navigated "profile" (Some "bots")]
  /\ Db.connections (store w') = [].
Proof.
  cbn. split; [discriminate|]. repeat split.
Qed.

(** The same with the sides exchanged: Bots opens the profile of Ana. *)
Example bots_messages_ana :
  let env := {| profileId := Some "ana";
                currentProfile := Some (Scenario.as_viewer Scenario.bots Scenario.base) |} in
  let w := Scenario.mounted env Scenario.base in
  let w' := exec (handle env (ui w) ClickConnect) w in
  new_connection env (Scenario.as_viewer Scenario.bots Scenario.base)
    (Scenario.as_viewer Scenario.ana Scenario.base)
  = ("ana", "bots", "accepted")
  /\ skipn (length (trace w)) (trace w')
     = [Sent (Db.SelectConnection [(Db.col_mentor_id, "ana"); (Db.col_team_id, "bots")]);
        Navigated "profile" (Some "ana")]
  /\ Db.connections (store w') = [].
Proof. repeat split. Qed.

(** C3: in a sequential run by a signed-in viewer the handler returns
    normally after the existence query, sends no insert and leaves the
    store as it was, whatever the store holds and whether or not the
    query fails.  So a stored connection row of the canonical pair is
    never joined by a new one, a pair with at most one connection keeps at
    most one, and in every case the last thing the handler does is
    navigate the viewer to the target's profile view. *)
Theorem connect_guarded (env : Env) (current target : Profile) (w : World) :
  currentProfile env = Some current ->
  exists evs w',
    connect env target w = (Returned tt, w')
    /\ trace w' = trace w ++ evs ++ [Navigated "profile" (Some (id target))]
    /\ (forall view dest, ~ In (Navigated view dest) evs)
    /\ (forall m t st, ~ In (Sent (Db.InsertConnection m t st)) evs)
    /\ store w' = store w
    /\ forall m t,
         canonical_pair current target m t ->
         (pair_rows m t (store w) <> [] ->
          Db.connections (store w') = Db.connections (store w))
         /\ (length (pair_rows m t (store w)) <= 1 ->
             length (pair_rows m t (store w')) <= 1).
Proof.
  intros Hc.
  pose proof (connect_run env current target w Hc) as Hrun. cbv zeta in Hrun.
  exists [Sent (Db.SelectConnection
                  [(if UserType_eqb (user_type target) mentor
                    then Db.col_mentor_id else Db.col_team_id, id target);
                   (if isMentor env then Db.col_mentor_id else Db.col_team_id,
                    id current)])].
  eexists. split; [exact Hrun|]. cbn [trace store].
  split; [reflexivity|]. split.
  { intros view dest [H|[]]. discriminate. }
  split.
  { intros m t st [H|[]]. discriminate. }
  split; [reflexivity|].
  intros m t _. split; [reflexivity | trivial].
Qed.

Lemma connect_guarded_witness :
  let env := Scenario.ana_views_bots in
  let w := Scenario.mounted env Scenario.linked in
  currentProfile env = Some (Scenario.as_viewer Scenario.ana Scenario.base)
  /\ pair_rows "ana" "bots" (store w) = [Scenario.link 1 "ana" "bots"]
  /\ exists evs w',
       connect env (Scenario.as_viewer Scenario.bots Scenario.base) w
       = (Returned tt, w')
       /\ trace w' = trace w ++ evs ++ [Navigated "profile" (Some "bots")]
       /\ (forall view dest, ~ In (Navigated view dest) evs)
       /\ (forall m t st, ~ In (Sent (Db.InsertConnection m t st)) evs)
       /\ store w' = store w.
Proof.
  intros env w. split; [reflexivity|]. split; [reflexivity|].
  destruct (connect_guarded env
              (Scenario.as_viewer Scenario.ana Scenario.base)
              (Scenario.as_viewer Scenario.bots Scenario.base) w eq_refl)
    as (evs & w' & Hrun & Htrace & Hnav & Hins & Hstore & _).
  exists evs, w'.
  split; [exact Hrun|]. split; [exact Htrace|]. split; [exact Hnav|].
  split; [exact Hins | exact Hstore].
Defined.

(** ** The connect button and the viewer *)

(** Whenever nobody is signed in and a profile is shown, the page offers
    the "Mensagem" button, and pressing it throws before any request is
    sent. *)
Lemma connect_button_needs_no_viewer (env : Env) (r : UI) (p : Profile) (w : World) :
  currentProfile env = None ->
  loading r = false ->
  profile r = Some p ->
  (exists page,
      render env r = ProfilePage page /\ connect_button page = Some ClickConnect)
  /\ handle env r ClickConnect w = (Threw TypeError, w).
Proof.
  intros Hc Hl Hp. split.
  - unfold render, user_type_differs. rewrite Hl, Hp, Hc.
    eexists. split; reflexivity.
  - unfold handle, connect, non_null. rewrite Hp, Hc. reflexivity.
Qed.

(** With a viewer signed in the handler never throws. *)
Lemma connect_returns (env : Env) (current target : Profile) (w : World) :
  currentProfile env = Some current ->
  exists w', connect env target w = (Returned tt, w').
Proof.
  intros Hc. pose proof (connect_run env current target w Hc) as Hrun.
  cbv zeta in Hrun. eexists. exact Hrun.
Qed.

(** C9 : the page of Bots opened with nobody signed in: once the profile
    is loaded the render offers the "Mensagem" button although there is
    no viewer profile, and the click reads [id] of the absent profile: it
    throws a [TypeError], sends no request and does not navigate. *)
Theorem connect_button_without_viewer :
  let env := Scenario.anonymous_views_bots in
  let w := Scenario.mounted env Scenario.base in
  currentProfile env = None
  /\ (exists page,
         render env (ui w) = ProfilePage page
         /\ isOwnProfile page = false
         /\ connect_button page = Some ClickConnect)
  /\ handle env (ui w) ClickConnect w = (Threw TypeError, w).
Proof.
  cbn. split; [reflexivity|]. split; [|reflexivity].
  eexists. split; [reflexivity|]. split; reflexivity.
Qed.


(** * Further properties of the page *)

(** ** Frames *)

Lemma loadFollowerInfo_frame (env : Env) (w : World) :
  exists w' evs,
    loadFollowerInfo env w = (Returned tt, w')
    /\ store w' = store w
    /\ profile (ui w') = profile (ui w)
    /\ loading (ui w') = loading (ui w)
    /\ showFollowers (ui w') = showFollowers (ui w)
    /\ trace w' = trace w ++ evs
    /\ forallb is_query evs = true.
Proof.
  destruct (currentProfile env) as [current|] eqn:Hc.
  - rewrite (loadFollowerInfo_run env current w Hc). cbv zeta.
    do 2 eexists. split; [reflexivity|]. cbn [store ui profile loading showFollowers trace].
    do 5 (split; [reflexivity|]).
    destruct (negb _); reflexivity.
  - exists w, []. unfold loadFollowerInfo. rewrite Hc.
    repeat split. cbn. now rewrite app_nil_r.
Qed.

(** X1: whatever the target, the viewer and the fault plan, the effect
    that loads the page returns normally, leaves the store exactly as it
    was, and everything it puts on the trace is a read request: it never
    writes and never navigates. *)
Theorem useEffect_reads_only (env : Env) (w : World) :
  exists w' evs,
    useEffect env w = (Returned tt, w')
    /\ store w' = store w
    /\ trace w' = trace w ++ evs
    /\ forallb is_query evs = true
    /\ length evs <= 3.
Proof.
  unfold useEffect.
  destruct (targetProfileId env) as [t|] eqn:Ht;
    [destruct (truthy t) eqn:Htr|].
  - unfold bind. rewrite loadProfile_run.
    match goal with |- context [loadFollowerInfo env ?x] =>
      destruct (currentProfile env) as [current|] eqn:Hc;
      [rewrite (loadFollowerInfo_run env current x Hc)
      |unfold loadFollowerInfo; rewrite Hc; unfold ret]
    end.
    + cbv zeta. do 2 eexists. split; [reflexivity|].
      cbn [store trace]. split; [reflexivity|].
      rewrite <- app_assoc. split; [reflexivity|].
      destruct (negb _); cbn; split; try reflexivity; lia.
    + do 2 eexists. split; [reflexivity|]. cbn [store trace].
      split; [reflexivity|]. split; [reflexivity|]. cbn. split; [reflexivity|lia].
  - exists w, []. unfold ret. rewrite app_nil_r. cbn. repeat split. lia.
  - exists w, []. unfold ret. rewrite app_nil_r. cbn. repeat split. lia.
Qed.

(** X2: starting from the initial state, the page is still the spinner
    after its effect has run exactly when there is no usable target
    (neither a non-empty [profileId] nor a viewer with a non-empty
    identifier); with a usable target the spinner is gone whatever the
    store answers and whether or not the request fails. *)
Theorem spinner_iff_no_target (env : Env) (w : World) :
  loading (ui w) = true ->
  (render env (ui (exec (useEffect env) w)) = Spinner
   <-> forall t, targetProfileId env = Some t -> truthy t = false).
Proof.
  intros Hl. unfold exec, useEffect.
  destruct (targetProfileId env) as [t|] eqn:Ht;
    [destruct (truthy t) eqn:Htr|].
  - unfold bind. rewrite loadProfile_run.
    match goal with |- context [loadFollowerInfo env ?x] =>
      destruct (loadFollowerInfo_frame env x)
        as (w' & evs & Hrun & _ & Hp & Hload & _)
    end.
    rewrite Hrun. cbn [snd]. cbn [ui loading] in Hload.
    split.
    + unfold render. rewrite Hload. destruct (profile (ui w')); discriminate.
    + intros H. specialize (H t eq_refl). congruence.
  - unfold ret. cbn [snd]. split.
    + intros _ t' Ht'. inversion Ht'. now subst.
    + intros _. unfold render. now rewrite Hl.
  - unfold ret. cbn [snd]. split.
    + intros _ t' Ht'. discriminate.
    + intros _. unfold render. now rewrite Hl.
Qed.

Lemma spinner_iff_no_target_witness :
  loading (ui (Scenario.fresh Scenario.base [true])) = true
  /\ (render Scenario.anonymous_views_bots
        (ui (exec (useEffect Scenario.anonymous_views_bots)
               (Scenario.fresh Scenario.base [true]))) = Spinner
      <-> forall t, targetProfileId Scenario.anonymous_views_bots = Some t ->
                    truthy t = false).
Proof.
  split; [reflexivity|].
  apply (spinner_iff_no_target Scenario.anonymous_views_bots
           (Scenario.fresh Scenario.base [true]) eq_refl).
Defined.

(** X3: on one's own profile (the viewer's identifier is the target) the
    reader sends the follower query only: the existence query is skipped
    and [isFollowing] keeps the value it had. *)
Theorem loadFollowerInfo_own_profile (env : Env) (current : Profile) (w : World) :
  currentProfile env = Some current ->
  targetProfileId env = Some (id current) ->
  let w' := exec (loadFollowerInfo env) w in
  trace w' = trace w ++ [Sent (Db.SelectFollowers (Some (id current)))]
  /\ isFollowing (ui w') = isFollowing (ui w)
  /\ faults w' = tl (faults w).
Proof.
  intros Hc Ht w'. subst w'. unfold exec.
  rewrite (loadFollowerInfo_run env current w Hc). cbv zeta.
  rewrite Ht. cbn [Db.eq_value]. rewrite String.eqb_refl.
  cbn. repeat split.
Qed.

Lemma loadFollowerInfo_own_profile_witness :
  let env := {| profileId := None;
                currentProfile := Some (Scenario.as_viewer Scenario.bots Scenario.base) |} in
  let w := Scenario.fresh Scenario.base [] in
  currentProfile env = Some (Scenario.as_viewer Scenario.bots Scenario.base)
  /\ targetProfileId env = Some "bots"
  /\ trace (exec (loadFollowerInfo env) w)
     = trace w ++ [Sent (Db.SelectFollowers (Some "bots"))].
Proof.
  intros env w. split; [reflexivity|]. split; [reflexivity|].
  apply (loadFollowerInfo_own_profile env
           (Scenario.as_viewer Scenario.bots Scenario.base) w eq_refl eq_refl).
Defined.

(** ** Toggling, reloading and the store *)

Lemma forallb_negb_hd (l : list bool) :
  forallb negb l = true -> hd false l = false.
Proof.
  destruct l as [|f fs]; cbn; [reflexivity|].
  destruct f; cbn; [discriminate | reflexivity].
Qed.

(** The whole run of [toggleFollow] for a viewer other than the target
    when every request goes through. *)
Lemma toggleFollow_other (env : Env) (current target : Profile) (t : string)
      (r : UI) (w : World) :
  currentProfile env = Some current ->
  profile r = Some target ->
  targetProfileId env = Some t ->
  id current <> t ->
  reliable w ->
  exec (toggleFollow env r) w =
  let s1 := if isFollowing r
            then Db.delete_follow (id current) (id target) (store w)
            else Db.insert_follow (id current) (id target) (store w) in
  {| store := s1;
     ui := {| profile := profile (ui w);
              isFollowing :=
                isSome (maybeSingle (Db.select_follow_edge (id current) (Some t) s1));
              followerCount := length (Db.select_followers (Some t) s1);
              followers :=
                filter_Boolean (map entry_profiles (Db.select_followers (Some t) s1));
              showFollowers := showFollowers (ui w);
              loading := loading (ui w) |};
     faults := tl (tl (tl (faults w)));
     trace :=
       trace w ++
       [Sent (if isFollowing r
              then Db.DeleteFollow (id current) (id target)
              else Db.InsertFollow (id current) (id target));
        Sent (Db.SelectFollowers (Some t));
        Sent (Db.SelectFollowEdge (id current) (Some t))] |}.
Proof.
  intros Hc Hp Ht Hother Hrel.
  pose proof (reliable_hd w Hrel) as H0.
  pose proof (reliable_hd_tl w Hrel) as H1.
  assert (H2 : hd false (tl (tl (faults w))) = false).
  { apply forallb_negb_hd. now do 2 apply reliable_tl. }
  unfold exec. rewrite (toggleFollow_run env current target r w Hc Hp).
  rewrite (loadFollowerInfo_run env current _ Hc). cbv zeta.
  unfold followersList_of. cbn [snd toggled faults store ui trace profile
    isFollowing followerCount followers showFollowers loading].
  rewrite H0, H1, H2, Ht. cbn [Db.eq_value or_empty].
  apply String.eqb_neq in Hother. rewrite Hother. cbn [negb].
  rewrite <- app_assoc. reflexivity.
Qed.

(** X4: once [toggleFollow] has run for a viewer other than the target and
    the two requests of its reload have gone through, the local state
    agrees with the store as the handler left it: the count is the number
    of edges stored for the target and the flag is the answer of the
    existence query.  This holds for any flag the handler started from
    and whether or not its insert or delete went through. *)
Theorem toggleFollow_reconciles (env : Env) (current target : Profile) (t : string)
        (r : UI) (w : World) :
  currentProfile env = Some current ->
  profile r = Some target ->
  targetProfileId env = Some t ->
  id current <> t ->
  hd false (tl (faults w)) = false ->
  hd false (tl (tl (faults w))) = false ->
  let w' := exec (toggleFollow env r) w in
  followerCount (ui w') = length (Db.edges_to (Some t) (store w'))
  /\ isFollowing (ui w')
     = isSome (maybeSingle (Db.select_follow_edge (id current) (Some t) (store w'))).
Proof.
  intros Hc Hp Ht Hother H1 H2 w'. subst w'.
  unfold exec. rewrite (toggleFollow_run env current target r w Hc Hp).
  rewrite (loadFollowerInfo_run env current _ Hc). cbv zeta.
  unfold followersList_of. cbn [snd toggled faults store ui followerCount isFollowing].
  rewrite H1, H2, Ht. cbn [Db.eq_value or_empty].
  apply String.eqb_neq in Hother. rewrite Hother. cbn [negb].
  split; [apply select_followers_length | reflexivity].
Qed.

Lemma toggleFollow_reconciles_witness :
  let env := Scenario.ana_views_bots in
  let w := Scenario.fresh Scenario.base [true] in
  let r := {| profile := Some (Scenario.as_viewer Scenario.bots Scenario.base);
              isFollowing := false; followerCount := 7; followers := [];
              showFollowers := false; loading := false |} in
  id (Scenario.as_viewer Scenario.ana Scenario.base) <> "bots"
  /\ hd false (tl (faults w)) = false
  /\ followerCount (ui (exec (toggleFollow env r) w)) = 1
  /\ isFollowing (ui (exec (toggleFollow env r) w)) = false.
Proof.
  intros env w r. split; [discriminate|]. split; [reflexivity|].
  apply (toggleFollow_reconciles env
           (Scenario.as_viewer Scenario.ana Scenario.base)
           (Scenario.as_viewer Scenario.bots Scenario.base) "bots" r w
           eq_refl eq_refl eq_refl).
  - discriminate.
  - reflexivity.
  - reflexivity.
Defined.

Lemma filter_none_keeps_all {A : Type} (f : A -> bool) (l : list A) :
  filter f l = [] -> filter (fun a => negb (f a)) l = l.
Proof.
  induction l as [|a l IH]; cbn; [reflexivity|].
  destruct (f a); cbn; [discriminate|].
  intros H. f_equal. now apply IH.
Qed.

Lemma edges_to_followers (t : option string) (s1 s2 : Db.Store) :
  Db.followers s1 = Db.followers s2 -> Db.edges_to t s1 = Db.edges_to t s2.
Proof. unfold Db.edges_to. now intros ->. Qed.

(** X5: a follow followed by an unfollow is a round trip.  The viewer is
    not the target, the loaded profile is the target, every request goes
    through, the flag is clear and the store holds no edge from the viewer
    to the target.  After the first toggle the flag is set; after the
    second, issued from the re-rendered state, the table of follow edges
    is the one the page started from, the flag is clear again and the
    count is the number of edges originally stored for the target. *)
Theorem follow_then_unfollow (env : Env) (current target : Profile) (w : World) :
  currentProfile env = Some current ->
  profile (ui w) = Some target ->
  targetProfileId env = Some (id target) ->
  id current <> id target ->
  reliable w ->
  isFollowing (ui w) = false ->
  Db.select_follow_edge (id current) (Some (id target)) (store w) = [] ->
  let w1 := exec (toggleFollow env (ui w)) w in
  let w2 := exec (toggleFollow env (ui w1)) w1 in
  isFollowing (ui w1) = true
  /\ followerCount (ui w1) = length (Db.edges_to (Some (id target)) (store w)) + 1
  /\ Db.followers (store w2) = Db.followers (store w)
  /\ isFollowing (ui w2) = false
  /\ followerCount (ui w2) = length (Db.edges_to (Some (id target)) (store w)).
Proof.
  intros Hc Hp Ht Hother Hrel Hflag Hnone w1 w2.
  assert (Hnone' : filter (Db.is_edge (id current) (Some (id target)))
                     (Db.followers (store w)) = []).
  { unfold Db.select_follow_edge in Hnone.
    destruct (filter _ _); [reflexivity | discriminate]. }
  assert (E1 : w1 = _)
    by exact (toggleFollow_other env current target (id target) (ui w) w
                Hc Hp Ht Hother Hrel).
  rewrite Hflag in E1. cbv zeta in E1.
  assert (Hedge : filter (Db.is_edge (id current) (Some (id target)))
                    (Db.followers (Db.insert_follow (id current) (id target) (store w)))
                  = [ {| Db.follow_row_id := Db.next_row_id (store w);
                         Db.follower_id := id current;
                         Db.following_id := id target |} ]).
  { unfold Db.insert_follow. cbn [Db.followers Db.with_followers].
    rewrite filter_app, Hnone'. unfold Db.is_edge. cbn.
    now rewrite !String.eqb_refl. }
  assert (Hf1 : isFollowing (ui w1) = true).
  { rewrite E1. cbn [ui isFollowing]. unfold Db.select_follow_edge.
    rewrite Hedge. reflexivity. }
  assert (Hp1 : profile (ui w1) = Some target) by (rewrite E1; exact Hp).
  assert (Hrel1 : reliable w1).
  { unfold reliable. rewrite E1. cbn [faults]. now do 3 apply reliable_tl. }
  assert (E2 : w2 = _)
    by exact (toggleFollow_other env current target (id target) (ui w1) w1
                Hc Hp1 Ht Hother Hrel1).
  rewrite Hf1 in E2. cbv zeta in E2.
  assert (Hback : Db.followers (Db.delete_follow (id current) (id target) (store w1))
                  = Db.followers (store w)).
  { rewrite E1. unfold Db.delete_follow, Db.insert_follow.
    cbn [store Db.followers Db.with_followers].
    rewrite filter_app, (filter_none_keeps_all _ _ Hnone').
    unfold Db.is_edge. cbn. rewrite !String.eqb_refl. cbn. apply app_nil_r. }
  split; [exact Hf1|]. split.
  { rewrite E1. cbn [ui followerCount]. rewrite select_followers_length.
    apply edges_to_insert. }
  rewrite E2. cbn [store ui isFollowing followerCount].
  split; [exact Hback|]. split.
  - unfold Db.select_follow_edge. rewrite Hback, Hnone'. reflexivity.
  - rewrite select_followers_length. f_equal. now apply edges_to_followers.
Qed.

Lemma follow_then_unfollow_witness :
  let env := Scenario.ana_views_bots in
  let w := Scenario.mounted env Scenario.base in
  let w1 := exec (toggleFollow env (ui w)) w in
  let w2 := exec (toggleFollow env (ui w1)) w1 in
  reliable w
  /\ Db.select_follow_edge "ana" (Some "bots") (store w) = []
  /\ isFollowing (ui w1) = true
  /\ followerCount (ui w1) = 1 + 1
  /\ Db.followers (store w2) = Db.followers (store w)
  /\ isFollowing (ui w2) = false
  /\ followerCount (ui w2) = 1.
Proof.
  intros env w w1 w2. split; [reflexivity|]. split; [reflexivity|].
  apply (follow_then_unfollow env
           (Scenario.as_viewer Scenario.ana Scenario.base)
           (Scenario.as_viewer Scenario.bots Scenario.base) w
           eq_refl eq_refl eq_refl).
  - discriminate.
  - reflexivity.
  - reflexivity.
  - reflexivity.
Defined.

Lemma maybeSingle_many {A : Type} (l : list A) :
  2 <= length l -> maybeSingle l = None.
Proof.
  destruct l as [|a [|b l]]; cbn; intros H; try lia; reflexivity.
Qed.

(** X6: duplicate edges are never repaired by the follow button.  When the
    store holds two or more edges from the viewer to the target, the
    reader's existence query yields no row; a toggle issued from a flag
    that agrees with that query inserts one more edge, and after the
    reload the flag is clear again. *)
Theorem toggle_on_duplicate_edges (env : Env) (current target : Profile)
        (r : UI) (w : World) :
  currentProfile env = Some current ->
  profile r = Some target ->
  targetProfileId env = Some (id target) ->
  id current <> id target ->
  reliable w ->
  isFollowing r
  = isSome (maybeSingle
              (Db.select_follow_edge (id current) (Some (id target)) (store w))) ->
  2 <= length (Db.select_follow_edge (id current) (Some (id target)) (store w)) ->
  let w' := exec (toggleFollow env r) w in
  isFollowing r = false
  /\ length (Db.select_follow_edge (id current) (Some (id target)) (store w'))
     = length (Db.select_follow_edge (id current) (Some (id target)) (store w)) + 1
  /\ isFollowing (ui w') = false.
Proof.
  intros Hc Hp Ht Hother Hrel Hflag Hmany w'.
  rewrite (maybeSingle_many _ Hmany) in Hflag. cbn in Hflag.
  assert (E : w' = _)
    by exact (toggleFollow_other env current target (id target) r w
                Hc Hp Ht Hother Hrel).
  rewrite Hflag in E. cbv zeta in E.
  assert (Hlen : length (Db.select_follow_edge (id current) (Some (id target))
                           (Db.insert_follow (id current) (id target) (store w)))
                 = length (Db.select_follow_edge (id current) (Some (id target))
                             (store w)) + 1).
  { unfold Db.select_follow_edge, Db.insert_follow.
    cbn [Db.followers Db.with_followers].
    rewrite filter_app, map_app, length_app. unfold Db.is_edge at 2. cbn.
    now rewrite !String.eqb_refl. }
  split; [exact Hflag|]. rewrite E. cbn [store ui isFollowing].
  split; [exact Hlen|].
  rewrite maybeSingle_many; [reflexivity | lia].
Qed.

Lemma toggle_on_duplicate_edges_witness :
  let env := Scenario.ana_views_bots in
  let s := Db.with_followers Scenario.base
             [Scenario.edge 0 "ana" "bots"; Scenario.edge 1 "ana" "bots"] 2 in
  let w := Scenario.mounted env s in
  let w' := exec (toggleFollow env (ui w)) w in
  2 <= length (Db.select_follow_edge "ana" (Some "bots") (store w))
  /\ isFollowing (ui w) = false
  /\ length (Db.select_follow_edge "ana" (Some "bots") (store w')) = 2 + 1
  /\ isFollowing (ui w') = false.
Proof.
  intros env s w w'. split; [cbn; lia|].
  apply (toggle_on_duplicate_edges env
           (Scenario.as_viewer Scenario.ana Scenario.base)
           (Scenario.as_viewer Scenario.bots Scenario.base) (ui w) w
           eq_refl eq_refl eq_refl).
  - discriminate.
  - reflexivity.
  - reflexivity.
  - cbn. lia.
Defined.

(** ** Pressing "Mensagem" twice *)

(** X7: pressing "Mensagem" twice in a row creates no connection.  For a
    signed-in viewer and a target of different roles, each press sends
    one existence query and then navigates; both queries carry the same
    filters, which select exactly the rows whose [mentor_id] is the
    mentor's identifier and whose [team_id] is the team's, whichever side
    is the viewer; and the store after the second press is the store
    before the first, whatever it holds and whatever fails. *)
Theorem connect_twice (env : Env) (current target : Profile) (m t : string)
        (w : World) :
  currentProfile env = Some current ->
  canonical_pair current target m t ->
  let w1 := exec (connect env target) w in
  let w2 := exec (connect env target) w1 in
  exists filters,
    (forall r, Db.matches filters r = true
               <-> Db.mentor_id r = m /\ Db.team_id r = t)
    /\ trace w2
       = trace w ++
         [Sent (Db.SelectConnection filters);
          Navigated "profile" (Some (id target));
          Sent (Db.SelectConnection filters);
          Navigated "profile" (Some (id target))]
    /\ store w2 = store w.
Proof.
  intros Hc Hpair w1 w2. subst w2 w1. unfold exec.
  rewrite (connect_run env current target w Hc). cbv zeta. cbn [snd].
  rewrite (connect_run env current target _ Hc). cbv zeta. cbn [snd trace store].
  eexists. split; [|split; [rewrite <- app_assoc; reflexivity | reflexivity]].
  intros r. unfold Db.matches, isMentor. rewrite Hc.
  destruct Hpair as [(Hv & Ht & -> & ->)|(Hv & Ht & -> & ->)];
    rewrite Hv, Ht; cbn; rewrite andb_true_r, andb_true_iff, !String.eqb_eq;
    tauto.
Qed.

Lemma connect_twice_witness :
  let env := Scenario.ana_views_bots in
  let target := Scenario.as_viewer Scenario.bots Scenario.base in
  let w := Scenario.mounted env Scenario.base in
  let w1 := exec (connect env target) w in
  let w2 := exec (connect env target) w1 in
  canonical_pair (Scenario.as_viewer Scenario.ana Scenario.base) target "ana" "bots"
  /\ exists filters,
       (forall r, Db.matches filters r = true
                  <-> Db.mentor_id r = "ana" /\ Db.team_id r = "bots")
       /\ trace w2
          = trace w ++
            [Sent (Db.SelectConnection filters);
             Navigated "profile" (Some "bots");
             Sent (Db.SelectConnection filters);
             Navigated "profile" (Some "bots")]
       /\ store w2 = store w.
Proof.
  intros env target w w1 w2.
  assert (Hpair : canonical_pair (Scenario.as_viewer Scenario.ana Scenario.base)
                    target "ana" "bots") by (left; repeat split).
  split; [exact Hpair|].
  apply (connect_twice env (Scenario.as_viewer Scenario.ana Scenario.base)
           target "ana" "bots" w eq_refl Hpair).
Defined.

(** ** What the rendered page offers *)

Lemma In_filter_Boolean {A : Type} (l : list (option A)) (a : A) :
  In a (filter_Boolean l) <-> In (Some a) l.
Proof.
  induction l as [|[b|] l IH]; cbn.
  - reflexivity.
  - rewrite IH. split; intros [H|H]; auto; left; congruence.
  - rewrite IH. split; [auto | intros [H|H]; [discriminate | exact H]].
Qed.

Lemma follower_cards_In (r : UI) (f : FollowerProfile) (c : Click) :
  In (f, c) (follower_cards r) ->
  c = ClickNavigate "profile" (Some (fp_id f)) /\ In f (followers r).
Proof.
  unfold follower_cards.
  destruct (showFollowers r && Nat.ltb 0 (length (followers r))); [|intros []].
  intros H. apply in_map_iff in H. destruct H as (g & Hg & Hin).
  inversion Hg. subst. split; [reflexivity | exact Hin].
Qed.

Lemma card_clicks (r : UI) (c : Click) :
  In c (map snd (follower_cards r)) ->
  exists f, c = ClickNavigate "profile" (Some (fp_id f)).
Proof.
  intros H. apply in_map_iff in H. destruct H as ((f & c') & Hc & Hin).
  cbn in Hc. subst c'. exists f. now apply follower_cards_In in Hin.
Qed.

Ltac not_offered H Hcards :=
  cbn in H;
  repeat (destruct H as [H|H]; [try discriminate|]);
  try (apply Hcards in H; destruct H as (? & H); discriminate).

(** The controls of a loaded profile, by the two tests the render makes. *)
Lemma controls_loaded (env : Env) (r : UI) (p : Profile) :
  loading r = false ->
  profile r = Some p ->
  let own := match currentProfile env with
             | Some current => id current =? id p
             | None => false
             end in
  controls env r =
  ClickNavigate "dashboard" None ::
  (if own then [ClickNavigate "edit-profile" None] else []) ++
  (if own then [] else [ClickToggleFollow]) ++
  (if negb own && user_type_differs env p then [ClickConnect] else []) ++
  (if own then [ClickNavigate "edit-profile" None] else []) ++
  ClickShowFollowers :: map snd (follower_cards r).
Proof.
  intros Hl Hp own. unfold controls, render. rewrite Hl, Hp. fold own.
  cbn [page_back isOwnProfile follow_button connect_button edit_button].
  destruct own; cbn [negb andb button]; [reflexivity|].
  destruct (user_type_differs env p); reflexivity.
Qed.

(** X8: on a loaded profile the controls are decided by ownership and
    role.  The navigation to the profile editor is offered exactly on the
    viewer's own profile, the follow button exactly on any other profile,
    and the "Mensagem" button exactly on another profile whose role
    differs from the viewer's (which includes the case of no viewer): two
    mentors or two teams are never offered it. *)
Theorem controls_by_owner_and_role (env : Env) (r : UI) (p : Profile) :
  loading r = false ->
  profile r = Some p ->
  let own := exists current, currentProfile env = Some current /\ id current = id p in
  (In (ClickNavigate "edit-profile" None) (controls env r) <-> own)
  /\ (In ClickToggleFollow (controls env r) <-> ~ own)
  /\ (In ClickConnect (controls env r)
      <-> ~ own /\ forall current, currentProfile env = Some current ->
                                   user_type current <> user_type p).
Proof.
  intros Hl Hp own. rewrite (controls_loaded env r p Hl Hp). cbv zeta.
  assert (Hcards : forall c, In c (map snd (follower_cards r)) ->
                             exists f, c = ClickNavigate "profile" (Some (fp_id f)))
    by apply card_clicks.
  assert (Hdiff : user_type_differs env p = true
                  <-> forall current, currentProfile env = Some current ->
                                      user_type current <> user_type p).
  { unfold user_type_differs. destruct (currentProfile env) as [c|].
    - split.
      + intros H c' Hc'. inversion Hc'. subst c'.
        destruct (user_type c), (user_type p); cbn in H; congruence.
      + intros H. specialize (H c eq_refl).
        destruct (user_type c), (user_type p); cbn; congruence.
    - split; [intros _ c' Hc'; discriminate | reflexivity]. }
  assert (Hown : match currentProfile env with
                 | Some current => id current =? id p
                 | None => false
                 end = true <-> own).
  { subst own. destruct (currentProfile env) as [c|].
    - rewrite String.eqb_eq. split.
      + intros H. exists c. now split.
      + intros (c' & Hc' & Hid). inversion Hc'. now subst.
    - split; [discriminate | intros (c' & Hc' & _); discriminate]. }
  destruct (match currentProfile env with
            | Some current => id current =? id p
            | None => false
            end) eqn:Hb.
  - assert (Ho : own) by now apply Hown.
    cbn [negb andb app]. split; [|split]; split.
    + intros _. exact Ho.
    + intros _. right. now left.
    + intros H. exfalso. not_offered H Hcards.
    + intros H. elim (H Ho).
    + intros H. exfalso. not_offered H Hcards.
    + intros (H & _). elim (H Ho).
  - assert (Ho : ~ own) by (intros H; apply Hown in H; discriminate).
    cbn [negb andb app].
    destruct (user_type_differs env p) eqn:Hd; cbn [app]; (split; [|split]); split.
    + intros H. exfalso. not_offered H Hcards.
    + intros H. elim (Ho H).
    + intros _. exact Ho.
    + intros _. right. now left.
    + intros _. split; [exact Ho | now apply Hdiff].
    + intros _. right. right. now left.
    + intros H. exfalso. not_offered H Hcards.
    + intros H. elim (Ho H).
    + intros _. exact Ho.
    + intros _. right. now left.
    + intros H. exfalso. not_offered H Hcards.
    + intros (_ & H). apply Hdiff in H. discriminate.
Qed.

Lemma controls_by_owner_and_role_witness :
  let env := Scenario.ana_views_bots in
  let r := ui (Scenario.mounted env Scenario.base) in
  loading r = false
  /\ profile r = Some (Scenario.as_viewer Scenario.bots Scenario.base)
  /\ (In ClickConnect (controls env r)
      <-> ~ (exists current, currentProfile env = Some current /\ id current = "bots")
          /\ forall current, currentProfile env = Some current ->
                             user_type current <> team).
Proof.
  intros env r. split; [reflexivity|]. split; [reflexivity|].
  apply (controls_by_owner_and_role env r
           (Scenario.as_viewer Scenario.bots Scenario.base) eq_refl eq_refl).
Defined.

(** X9: opened without a usable [profileId] by a signed-in viewer whose
    row is stored, the page is the viewer's own profile: the effect asks
    for the viewer's profile and followers only (no existence query), and
    the render shows that row with the edit button and neither the follow
    nor the "Mensagem" button. *)
Theorem own_profile_by_default (env : Env) (current : Profile) (row : ProfileRow)
        (w : World) :
  profileId env = None \/ profileId env = Some "" ->
  currentProfile env = Some current ->
  truthy (id current) = true ->
  filter (fun r => id r =? id current) (Db.profiles (store w)) = [row] ->
  hd false (faults w) = false ->
  let w' := exec (useEffect env) w in
  trace w' = trace w ++ [Sent (Db.SelectProfile (Some (id current)));
                         Sent (Db.SelectFollowers (Some (id current)))]
  /\ exists pg,
       render env (ui w') = ProfilePage pg
       /\ columns (page_profile pg) = row
       /\ isOwnProfile pg = true
       /\ follow_button pg = None
       /\ connect_button pg = None
       /\ edit_button pg = Some (ClickNavigate "edit-profile" None).
Proof.
  intros Hid Hc Htr Hrow Hok w'. subst w'.
  assert (Ht : targetProfileId env = Some (id current)).
  { unfold targetProfileId. destruct Hid as [-> | ->]; rewrite Hc; reflexivity. }
  assert (Hrid : id row = id current).
  { assert (Hin : In row (filter (fun r => id r =? id current) (Db.profiles (store w))))
      by (rewrite Hrow; now left).
    apply filter_In in Hin. now apply String.eqb_eq. }
  unfold exec, useEffect. rewrite Ht, Htr. unfold bind.
  rewrite loadProfile_run, (loadFollowerInfo_run env current _ Hc). cbv zeta.
  rewrite Hok, Ht. unfold Db.select_profile. cbn [Db.eq_value].
  rewrite Hrow, String.eqb_refl. cbn [map maybeSingle negb snd trace ui].
  split; [now rewrite <- app_assoc|].
  unfold render. cbn [loading profile]. rewrite Hc.
  cbn [columns Db.embed_details]. rewrite Hrid, String.eqb_refl.
  eexists. split; [reflexivity|]. repeat split.
Qed.

Lemma own_profile_by_default_witness :
  let env := {| profileId := Some "";
                currentProfile := Some (Scenario.as_viewer Scenario.ana Scenario.base) |} in
  let w := Scenario.fresh Scenario.base [] in
  let w' := exec (useEffect env) w in
  truthy "ana" = true
  /\ filter (fun r => id r =? "ana") (Db.profiles (store w)) = [Scenario.ana]
  /\ trace w' = trace w ++ [Sent (Db.SelectProfile (Some "ana"));
                            Sent (Db.SelectFollowers (Some "ana"))]
  /\ exists pg,
       render env (ui w') = ProfilePage pg
       /\ columns (page_profile pg) = Scenario.ana
       /\ isOwnProfile pg = true
       /\ follow_button pg = None
       /\ connect_button pg = None
       /\ edit_button pg = Some (ClickNavigate "edit-profile" None).
Proof.
  intros env w w'. split; [reflexivity|]. split; [reflexivity|].
  apply (own_profile_by_default env (Scenario.as_viewer Scenario.ana Scenario.base)
           Scenario.ana w (or_intror eq_refl) eq_refl eq_refl eq_refl eq_refl).
Defined.

(** X10: every follower card the page shows after a load that went
    through is a stored follower of the target: it comes from a follow
    edge whose [following_id] is the target and whose [follower_id] is the
    card's identifier, it carries the name, avatar and role of the stored
    profile with that identifier, and clicking it navigates to the
    profile view of that follower. *)
Theorem follower_cards_are_followers (env : Env) (current : Profile) (w : World) :
  currentProfile env = Some current ->
  hd false (faults w) = false ->
  let w' := exec (loadFollowerInfo env) w in
  forall f click,
    In (f, click) (follower_cards (ui w')) ->
    click = ClickNavigate "profile" (Some (fp_id f))
    /\ exists e row,
         In e (Db.followers (store w))
         /\ Some (Db.following_id e) = targetProfileId env
         /\ Db.follower_id e = fp_id f
         /\ In row (Db.profiles (store w))
         /\ id row = fp_id f
         /\ full_name row = fp_full_name f
         /\ avatar_url row = fp_avatar_url f
         /\ user_type row = fp_user_type f.
Proof.
  intros Hc Hok w' f click Hin. subst w'.
  apply follower_cards_In in Hin. destruct Hin as (Hclick & Hf).
  split; [exact Hclick|].
  unfold exec in Hf. rewrite (loadFollowerInfo_run env current w Hc) in Hf.
  cbv zeta in Hf. cbn [snd ui followers] in Hf.
  unfold followersList_of in Hf. rewrite Hok in Hf. cbn [or_empty] in Hf.
  apply In_filter_Boolean in Hf. apply in_map_iff in Hf.
  destruct Hf as (entry & Hentry & Hin).
  unfold Db.select_followers in Hin. apply in_map_iff in Hin.
  destruct Hin as (e & <- & He).
  unfold Db.edges_to in He. apply filter_In in He. destruct He as (He & Hto).
  cbn [entry_profiles Db.join_follower] in Hentry.
  destruct (find (fun r => id r =? Db.follower_id e) (Db.profiles (store w)))
    as [row|] eqn:Hfind; [|discriminate].
  apply find_some in Hfind. destruct Hfind as (Hrow & Hid).
  apply String.eqb_eq in Hid.
  cbn in Hentry. inversion Hentry. subst f. cbn.
  exists e, row. repeat split; auto.
  destruct (targetProfileId env) as [t|]; cbn in Hto; [|discriminate].
  apply String.eqb_eq in Hto. now rewrite Hto.
Qed.

Lemma follower_cards_are_followers_witness :
  let env := Scenario.ana_views_bots in
  let w := exec (setShowFollowers true) (Scenario.fresh Scenario.base []) in
  let w' := exec (loadFollowerInfo env) w in
  hd false (faults w) = false
  /\ map (fun c => fp_id (fst c)) (follower_cards (ui w')) = ["caio"]
  /\ forall f click,
       In (f, click) (follower_cards (ui w')) ->
       click = ClickNavigate "profile" (Some (fp_id f))
       /\ exists e row,
         In e (Db.followers (store w))
         /\ Some (Db.following_id e) = targetProfileId env
         /\ Db.follower_id e = fp_id f
         /\ In row (Db.profiles (store w))
         /\ id row = fp_id f
         /\ full_name row = fp_full_name f
         /\ avatar_url row = fp_avatar_url f
         /\ user_type row = fp_user_type f.
Proof.
  intros env w w'. split; [reflexivity|]. split; [reflexivity|].
  apply (follower_cards_are_followers env
           (Scenario.as_viewer Scenario.ana Scenario.base) w eq_refl eq_refl).
Defined.

(** X11: the middle counter of the profile view always equals the number
    of area chips displayed below it, and only the record of the
    profile's own role is shown: a mentor never displays interest chips
    and a team never displays knowledge chips, whatever detail records the
    profile carries. *)
Theorem areas_counter_matches_chips (p : Profile) :
  areas_counter p = length (knowledge_chips p ++ interest_chips p)
  /\ (user_type p = mentor -> interest_chips p = [])
  /\ (user_type p = team -> knowledge_chips p = []).
Proof.
  unfold areas_counter, knowledge_chips, interest_chips.
  destruct (user_type p) eqn:Hu;
    destruct (mentor_details p) as [md|];
    destruct (team_details p) as [td|];
    cbn [app length]; rewrite ?app_nil_r;
    (split; [|split; intros H; try discriminate; reflexivity]);
    try reflexivity;
    destruct (interest_areas td); reflexivity.
Qed.

(** ** What no click ever does *)

Lemma toggleFollow_frame (env : Env) (r : UI) (w : World) :
  exists w',
    toggleFollow env r w = (Returned tt, w')
    /\ Db.profiles (store w') = Db.profiles (store w)
    /\ Db.mentor_details_tbl (store w') = Db.mentor_details_tbl (store w)
    /\ Db.team_details_tbl (store w') = Db.team_details_tbl (store w)
    /\ Db.connections (store w') = Db.connections (store w).
Proof.
  destruct (currentProfile env) as [current|] eqn:Hc;
    [destruct (profile r) as [target|] eqn:Hp|].
  - rewrite (toggleFollow_run env current target r w Hc Hp).
    destruct (loadFollowerInfo_frame env (toggled (id current) (id target) r w))
      as (w' & evs & Hrun & Hstore & _).
    exists w'. split; [exact Hrun|]. rewrite Hstore. cbn [toggled store].
    destruct (hd false (faults w)); [repeat split|].
    destruct (isFollowing r); repeat split.
  - exists w. unfold toggleFollow. rewrite Hc, Hp. repeat split.
  - exists w. unfold toggleFollow. rewrite Hc. repeat split.
Qed.

Ltac untouched :=
  do 3 (split; [reflexivity|]);
  split;
  [ exists []; rewrite app_nil_r;
    split; [reflexivity|]; split; [cbn; lia | reflexivity]
  | reflexivity ].

(** X12: no click on the page ever touches the profiles or their detail
    records, and none ever removes or rewrites a connection: whatever the
    control, the render it comes from, the store and the fault plan, the
    three profile tables are as before and the connections are the old
    ones followed by at most one new row, which only "Mensagem" can add;
    follow edges change only through the follow button. *)
Theorem clicks_preserve_tables (env : Env) (r : UI) (c : Click) (w : World) :
  let s := store w in
  let s' := store (exec (handle env r c) w) in
  Db.profiles s' = Db.profiles s
  /\ Db.mentor_details_tbl s' = Db.mentor_details_tbl s
  /\ Db.team_details_tbl s' = Db.team_details_tbl s
  /\ (exists added,
         Db.connections s' = Db.connections s ++ added
         /\ length added <= 1
         /\ (c <> ClickConnect -> added = []))
  /\ (c <> ClickToggleFollow -> Db.followers s' = Db.followers s).
Proof.
  cbv zeta. unfold exec.
  destruct c as [view dest| | |]; cbn [handle].
  - cbn [onNavigate snd log_event store]. untouched.
  - destruct (toggleFollow_frame env r w) as (w' & Hrun & Hp & Hm & Ht & Hcn).
    rewrite Hrun. cbn [snd].
    split; [exact Hp|]. split; [exact Hm|]. split; [exact Ht|]. split.
    + exists []. rewrite app_nil_r.
      split; [exact Hcn|]. split; [cbn; lia | reflexivity].
    + intros H. now elim H.
  - destruct (profile r) as [p|].
    + destruct (currentProfile env) as [current|] eqn:Hc.
      * pose proof (connect_run env current p w Hc) as Hrun. cbv zeta in Hrun.
        rewrite Hrun. cbn [snd store]. untouched.
      * unfold connect, non_null, bind, throw. rewrite Hc. cbn [snd]. untouched.
    + cbn [ret snd]. untouched.
  - cbn [setShowFollowers snd with_ui store]. untouched.
Qed.

(** X13: the only way a click can throw is the "Mensagem" button pressed
    on a loaded profile while nobody is signed in; the error is then a
    [TypeError] and the world is left untouched.  Every other click, and
    every click of a signed-in viewer, returns normally. *)
Theorem only_connect_throws (env : Env) (r : UI) (c : Click) (w w' : World)
        (e : JsError) :
  handle env r c w = (Threw e, w') ->
  c = ClickConnect
  /\ currentProfile env = None
  /\ profile r <> None
  /\ e = TypeError
  /\ w' = w.
Proof.
  destruct c as [view dest| | |]; cbn [handle]; intros H.
  - discriminate.
  - destruct (toggleFollow_frame env r w) as (w1 & Hrun & _).
    rewrite Hrun in H. discriminate.
  - destruct (profile r) as [p|]; [|discriminate].
    destruct (currentProfile env) as [current|] eqn:Hc.
    + pose proof (connect_run env current p w Hc) as Hrun. cbv zeta in Hrun.
      rewrite Hrun in H. discriminate.
    + unfold connect, non_null, bind, throw in H. rewrite Hc in H.
      inversion H. subst. destruct e.
      split; [reflexivity|]. split; [reflexivity|].
      split; [discriminate|]. split; reflexivity.
  - discriminate.
Qed.

Lemma only_connect_throws_witness :
  let env := Scenario.anonymous_views_bots in
  let w := Scenario.mounted env Scenario.base in
  handle env (ui w) ClickConnect w = (Threw TypeError, w)
  /\ ClickConnect = ClickConnect
  /\ currentProfile env = None
  /\ profile (ui w) <> None
  /\ TypeError = TypeError
  /\ w = w.
Proof.
  intros env w. split; [reflexivity|].
  apply (only_connect_throws env (ui w) ClickConnect w w TypeError eq_refl).
Defined.

Lemma useEffect_agrees_witness :
  let env := Scenario.ana_views_bots in
  let w := Scenario.fresh Scenario.base [] in
  let w' := exec (useEffect env) w in
  truthy "bots" = true
  /\ reliable w
  /\ store w' = store w
  /\ followerCount (ui w') = length (Db.edges_to (Some "bots") (store w))
  /\ isFollowing (ui w')
     = isSome (maybeSingle (Db.select_follow_edge "ana" (Some "bots") (store w)))
  /\ (forall p, profile (ui w') = Some p -> id p = "bots").
Proof.
  intros env w w'. split; [reflexivity|]. split; [reflexivity|].
  apply (useEffect_agrees env (Scenario.as_viewer Scenario.ana Scenario.base)
           "bots" w eq_refl eq_refl eq_refl).
  - discriminate.
  - reflexivity.
Defined.
